(** * PyDebFlow: the simulation drivers of [run_simulation.py]

    A shallow embedding of the two drivers [run_synthetic_test] and
    [run_dem_simulation]: the construction of the flow parameters and of the
    initial state, the post-processing of the solver's output sequence into
    [SimulationResults], and the summary statistics.

    numpy's [float64] is IEEE 754 binary64, which is Rocq's primitive type
    [float]; every arithmetic operation below is the correctly rounded
    binary64 one, NaN and signed zeros included.  A two-dimensional array is
    a list of rows, its extents are [nat], and the other Python integers are
    [Z].  What a driver prints, plots or writes to disk is left out: the
    model keeps the values that are computed. *)

From stdpp Require Import base option list strings gmap.
From Stdlib Require Import ZArith Floats Lia.
From Stdlib Require Uint63.

Set Warnings "-inexact-float".
Set Default Proof Using "Type".
Local Open Scope float_scope.

(** ** numpy scalars *)

Module Float64.

(** [np.maximum] on two scalars: the first argument when it is a NaN or is
    not below the second, the second otherwise (so a NaN on either side is
    returned).  Of two zeros of different sign numpy may return either one;
    the theorems compare maxima with [==], which does not tell them
    apart. *)
Definition np_maximum (a b : float) : float :=
  if (b <=? a) || is_nan a then a else b.

(** [np.minimum] on two scalars, likewise. *)
Definition np_minimum (a b : float) : float :=
  if (a <=? b) || is_nan a then a else b.

(** [x**2] on an array element. *)
Definition square (x : float) : float := x * x.

(** A non-negative Python integer converted to [float64], as numpy does when
    an integer meets a float. *)
Definition of_nat (n : nat) : float := of_uint63 (Uint63.of_Z (Z.of_nat n)).

(** The value is a NaN or is not below zero. *)
Definition nonneg_or_nan (x : float) : Prop :=
  is_nan x = true ∨ (0 <=? x) = true.

(** The same on the specification side of binary64: a NaN, a zero, or a
    value whose sign bit is clear. *)
Definition SFnn (f : spec_float) : Prop :=
  match f with
  | S754_nan | S754_zero _ => True
  | S754_infinity s | S754_finite s _ _ => s = false
  end.

(** [m] is the maximum of the values [vs] in numpy's sense ([np.max]): a NaN
    as soon as one value is a NaN; otherwise a value of the list (up to
    [==], which identifies the two zeros) that no value exceeds. *)
Definition is_maximum_of (m : float) (vs : list float) : Prop :=
  if existsb is_nan vs then is_nan m = true
  else (∃ v, v ∈ vs ∧ (m =? v) = true) ∧ Forall (λ v, (v <=? m) = true) vs.

End Float64.

(** ** numpy arrays of shape [(rows, cols)] *)

Abbreviation Grid := (list (list float)).

(** [np.zeros((rows, cols))]. *)
Definition np_zeros (rows cols : nat) : Grid :=
  replicate rows (replicate cols 0).

(** A binary operator applied element by element.  numpy requires the two
    shapes to agree (or to broadcast) and raises otherwise; the drivers only
    combine arrays of the terrain's shape, which the theorems assume. *)
Definition elementwise (f : float → float → float) (a b : Grid) : Grid :=
  zip_with (zip_with f) a b.

(** A unary function, or an operation with a scalar, applied element by
    element. *)
Definition grid_map (f : float → float) (a : Grid) : Grid :=
  (λ row : list float, f <$> row) <$> a.

(** The element at row [i], column [j], when there is one. *)
Definition cell (a : Grid) (i j : nat) : option float :=
  a !! i ≫= λ row, row !! j.

(** The same element as a number: [0] where the array has none (the
    theorems read inside the array only). *)
Definition value_at (a : Grid) (i j : nat) : float :=
  default 0 (cell a i j).

(** Every element satisfies [P]. *)
Definition grid_all (P : float → Prop) (a : Grid) : Prop :=
  Forall (Forall P) a.

(** The array has [rows] rows of [cols] elements each. *)
Definition has_shape (rows cols : nat) (a : Grid) : Prop :=
  length a = rows ∧ Forall (λ row, length row = cols) a.

(** The sum of a one-dimensional array, accumulated from the left.  numpy
    adds eight or more elements pairwise and in blocks, so that its sum can
    differ from this one in the last bits; the sign, and whether the sum is
    a NaN, do not depend on the order when no element is negative, and only
    these are used of it. *)
Definition sum_row (row : list float) : float :=
  foldl PrimFloat.add 0 row.

(** [a.sum()]: the sum of all the elements, in the same order. *)
Definition np_sum (a : Grid) : float := sum_row (concat a).

(** [a.sum(axis=1)]: the sum of each row. *)
Definition sum_axis1 (a : Grid) : list float := sum_row <$> a.

(** [np.sum(mask)] on a boolean array: the number of [True]s. *)
Definition count_true (mask : list (list bool)) : nat :=
  length (filter (λ b, b = true) (concat mask)).

(** The scan of [np.argmax]: [best] is the largest element seen so far, at
    index [besti]; a later element replaces it only when strictly larger
    ([False < True]). *)
Fixpoint argmax_scan (best : bool) (besti i : nat) (l : list bool) : nat :=
  match l with
  | [] => besti
  | x :: l' =>
      if negb best && x then argmax_scan x i (S i) l'
      else argmax_scan best besti (S i) l'
  end.

(** [np.argmax] on a one-dimensional boolean array: the index of the first
    occurrence of the largest element; [ValueError] ([None]) on an empty
    array. *)
Definition np_argmax (l : list bool) : option nat :=
  match l with
  | [] => None
  | x :: l' => Some (argmax_scan x 0 1 l')
  end.

(** ** The data model *)

(** [Terrain]: the attributes the drivers read. *)
Record Terrain := {
  rows : nat;
  cols : nat;
  cell_size : float;
  elevation : Grid;
  x_origin : float;
  y_origin : float
}.

(** [FlowState]: depth and velocity components of the two phases. *)
Record FlowState := {
  h_solid : Grid;
  h_fluid : Grid;
  u_solid : Grid;
  v_solid : Grid;
  u_fluid : Grid;
  v_fluid : Grid
}.

(** [FlowState.zeros(shape)]. *)
Definition FlowState_zeros (rows cols : nat) : FlowState :=
  {| h_solid := np_zeros rows cols; h_fluid := np_zeros rows cols;
     u_solid := np_zeros rows cols; v_solid := np_zeros rows cols;
     u_fluid := np_zeros rows cols; v_fluid := np_zeros rows cols |}.

Record FlowParameters := {
  solid_density : float;
  fluid_density : float;
  basal_friction_angle : float;
  voellmy_mu : float;
  voellmy_xi : float
}.

(** [SolverConfig]; a field the constructor call leaves out keeps the
    class's default, which is [None] here. *)
Record SolverConfig := {
  cfl_number : float;
  max_timestep : float;
  flux_limiter : option string;
  boundary_type : option string
}.

(** The keyword arguments of [SimulationResults(...)]. *)
Record SimulationResults := {
  times : list float;
  max_flow_height : Grid;
  max_velocity : Grid;
  max_pressure : Grid;
  final_h_solid : Grid;
  final_h_fluid : Grid;
  final_u : Grid;
  final_v : Grid
}.

(** The solver's output sequence: [(time, snapshot)] pairs. *)
Abbreviation Outputs := (list (float * FlowState)).

(** ** The drivers *)

(** The accumulators of the post-processing loop. *)
Module Loop.
Record vars := {
  max_height : Grid;
  max_velocity : Grid;
  max_pressure : Grid
}.
End Loop.

(** What a driver has computed when it returns: the [SimulationResults] and
    the metadata handed to the exporter, and the printed statistics. *)
Record Report := {
  results : SimulationResults;
  metadata : gmap string float;
  initial_volume : float;
  final_volume : option float;
  affected_area : option float;
  approximate_runout : option float
}.

(** [FlowParameters(...)] and [SolverConfig(...)] of [run_synthetic_test]. *)
Definition synthetic_params : FlowParameters :=
  {| solid_density := 2500.0; fluid_density := 1100.0;
     basal_friction_angle := 22.0; voellmy_mu := 0.15; voellmy_xi := 500.0 |}.

Definition synthetic_config : SolverConfig :=
  {| cfl_number := 0.4; max_timestep := 0.5;
     flux_limiter := Some "minmod"%string;
     boundary_type := Some "outflow"%string |}.

(** [FlowParameters(...)] and [SolverConfig(...)] of [run_dem_simulation]. *)
Definition dem_params : FlowParameters :=
  {| solid_density := 2500.0; fluid_density := 1100.0;
     basal_friction_angle := 22.0; voellmy_mu := 0.12; voellmy_xi := 400.0 |}.

Definition dem_config : SolverConfig :=
  {| cfl_number := 0.4; max_timestep := 0.5;
     flux_limiter := None; boundary_type := None |}.

(** [state = FlowState.zeros(...); state.h_solid = release * 0.7;
    state.h_fluid = release * 0.3]. *)
Definition initial_state (terrain : Terrain) (release : Grid) : FlowState :=
  let state := FlowState_zeros (rows terrain) (cols terrain) in
  {| h_solid := grid_map (λ x, x * 0.7) release;
     h_fluid := grid_map (λ x, x * 0.3) release;
     u_solid := u_solid state; v_solid := v_solid state;
     u_fluid := u_fluid state; v_fluid := v_fluid state |}.

(** [(state.h_solid.sum() + state.h_fluid.sum()) * terrain.cell_size**2],
    the formula of [initial_volume] and of [final_volume], with the sums
    taken from the left and [cell_size * cell_size] for the square: its
    value is the interpreter's up to the last bits (and where [** 2] does
    not overflow), its sign is the interpreter's. *)
Definition volume (terrain : Terrain) (state : FlowState) : float :=
  (np_sum (h_solid state) + np_sum (h_fluid state))
  * Float64.square (cell_size terrain).

(** [s.h_solid + s.h_fluid]. *)
Definition h_total (s : FlowState) : Grid :=
  elementwise PrimFloat.add (h_solid s) (h_fluid s).

(** [np.sqrt(s.u_solid**2 + s.v_solid**2)]. *)
Definition speed (s : FlowState) : Grid :=
  grid_map sqrt
    (elementwise PrimFloat.add (grid_map Float64.square (u_solid s))
                               (grid_map Float64.square (v_solid s))).

(** The release-zone centre of [run_dem_simulation]: a coordinate that is
    [None] is replaced, [//] being the floor division. *)
Definition release_center (terrain : Terrain) (release_i release_j : option Z)
  : Z * Z :=
  let release_i :=
    match release_i with
    | None => (Z.of_nat (rows terrain) / 5)%Z
    | Some i => i
    end in
  let release_j :=
    match release_j with
    | None => (Z.of_nat (cols terrain) / 2)%Z
    | Some j => j
    end in
  (release_i, release_j).

(** [max(1.0, t_end / 60)]: Python's [max] keeps its first argument unless
    the second is greater. *)
Definition dem_output_interval (t_end : float) : float :=
  if 1.0 <? t_end / 60 then t_end / 60 else 1.0.

(** [metadata = {'cell_size': ..., 'x_origin': ..., 'y_origin': ...}]. *)
Definition make_metadata (terrain : Terrain) : gmap string float :=
  {[ "cell_size"%string := cell_size terrain;
     "x_origin"%string := x_origin terrain;
     "y_origin"%string := y_origin terrain ]}.

(** [np.argmax(max_height.sum(axis=1) > 0)]. *)
Definition runout (max_height : Grid) : option nat :=
  np_argmax ((λ x, 0 <? x) <$> sum_axis1 max_height).

(** [runout * terrain.cell_size], the approximate runout that is printed. *)
Definition runout_distance (terrain : Terrain) (max_height : Grid)
  : option float :=
  (λ r, Float64.of_nat r * cell_size terrain) <$> runout max_height.

(** [np.sum(max_height > 0.1) * terrain.cell_size**2], with
    [cell_size * cell_size] for the square, as in [volume]. *)
Definition affected (terrain : Terrain) (max_height : Grid) : float :=
  Float64.of_nat
    (count_true ((λ row : list float, (λ x, 0.1 <? x) <$> row) <$> max_height))
  * Float64.square (cell_size terrain).

(** [a.max()]: the maximum of all the elements, a NaN as soon as one of
    them is a NaN; [ValueError] ([None]) on an array without elements. *)
Definition np_max (a : Grid) : option float :=
  match concat a with
  | [] => None
  | x :: l => Some (foldl Float64.np_maximum x l)
  end.

(** [a.min()], likewise. *)
Definition np_min (a : Grid) : option float :=
  match concat a with
  | [] => None
  | x :: l => Some (foldl Float64.np_minimum x l)
  end.

(** The two values of the line [Elevation range: ...], which both drivers
    print once the terrain is there. *)
Definition elevation_range (terrain : Terrain) : option (float * float) :=
  lowest ← np_min (elevation terrain);
  highest ← np_max (elevation terrain);
  Some (lowest, highest).

(** [max_height.max()], [max_velocity.max()] and [max_pressure.max()], in
    the order the summary of [run_synthetic_test] prints them. *)
Definition printed_maxima (acc : Loop.vars) : option (float * float * float) :=
  h ← np_max (Loop.max_height acc);
  v ← np_max (Loop.max_velocity acc);
  p ← np_max (Loop.max_pressure acc);
  Some (h, v, p).

Section Drivers.

(** Two operations of the interpreter and of numpy whose result is theirs
    to the last bit, and is taken as they give it. *)

(** [a.sum()] on an array: numpy adds the elements pairwise and in blocks,
    in an order that depends on the length and the layout of the array. *)
Variable ndarray_sum : Grid → float.

(** [x ** 2] on a Python float: the [pow] of the C library, which raises
    [OverflowError] ([None]) when the result overflows. *)
Variable float_pow2 : float → option float.

(** The collaborators, which live outside the drivers' file. *)

(** [TwoPhaseFlowModel(params).compute_impact_pressure(s)]. *)
Variable compute_impact_pressure : FlowParameters → FlowState → Grid.

(** [terrain.create_release_zone(center_i, center_j, radius, height)]. *)
Variable create_release_zone : Terrain → Z → Z → Z → float → Grid.

(** [Terrain.create_synthetic_slope(rows, cols, cell_size, slope_angle,
    add_channel)]. *)
Variable create_synthetic_slope : nat → nat → float → float → bool → Terrain.

(** [Terrain.load(dem_file)], which may raise. *)
Variable Terrain_load : string → option Terrain.

(** [NOCTVDSolver(terrain, model, solver_config).run_simulation(state,
    t_end, output_interval, progress_callback)], which may raise; [model] is
    [TwoPhaseFlowModel(params)] and the callback only prints. *)
Variable run_simulation :
  Terrain → FlowParameters → SolverConfig → FlowState → float → float →
  option Outputs.

(** The body of [for t, s in outputs]. *)
Definition loop_body (params : FlowParameters) (acc : Loop.vars)
    (out : float * FlowState) : Loop.vars :=
  let s := out.2 in
  let pressure := compute_impact_pressure params s in
  {| Loop.max_height :=
       elementwise Float64.np_maximum (Loop.max_height acc) (h_total s);
     Loop.max_velocity :=
       elementwise Float64.np_maximum (Loop.max_velocity acc) (speed s);
     Loop.max_pressure :=
       elementwise Float64.np_maximum (Loop.max_pressure acc) pressure |}.

(** The three [np.zeros((terrain.rows, terrain.cols))] before the loop. *)
Definition loop_init (terrain : Terrain) : Loop.vars :=
  {| Loop.max_height := np_zeros (rows terrain) (cols terrain);
     Loop.max_velocity := np_zeros (rows terrain) (cols terrain);
     Loop.max_pressure := np_zeros (rows terrain) (cols terrain) |}.

(** The loop of [run_synthetic_test]. *)
Definition accumulate (terrain : Terrain) (params : FlowParameters)
    (outputs : Outputs) : Loop.vars :=
  foldl (loop_body params) (loop_init terrain) outputs.

(** The loop of [run_dem_simulation], which also collects [snapshots] and
    [times]. *)
Definition dem_loop_body (params : FlowParameters)
    (acc : Loop.vars * list Grid * list float) (out : float * FlowState)
  : Loop.vars * list Grid * list float :=
  let '(maxima, snapshots, times) := acc in
  (loop_body params maxima out, snapshots ++ [h_total out.2],
   times ++ [out.1]).

Definition dem_accumulate (terrain : Terrain) (params : FlowParameters)
    (outputs : Outputs) : Loop.vars * list Grid * list float :=
  foldl (dem_loop_body params) (loop_init terrain, [], []) outputs.

(** [SimulationResults(...)] of [run_synthetic_test]; [outputs[-1]] raises
    [IndexError] on an empty sequence. *)
Definition synthetic_results (terrain : Terrain) (params : FlowParameters)
    (outputs : Outputs) : option SimulationResults :=
  let acc := accumulate terrain params outputs in
  final ← last outputs;
  let final_state := final.2 in
  Some {| times := fst <$> outputs;
          max_flow_height := Loop.max_height acc;
          max_velocity := Loop.max_velocity acc;
          max_pressure := Loop.max_pressure acc;
          final_h_solid := h_solid final_state;
          final_h_fluid := h_fluid final_state;
          final_u := u_solid final_state;
          final_v := v_solid final_state |}.

(** [SimulationResults(...)] of [run_dem_simulation]. *)
Definition dem_results (terrain : Terrain) (params : FlowParameters)
    (outputs : Outputs) : option SimulationResults :=
  let '(acc, snapshots, times) := dem_accumulate terrain params outputs in
  final ← last outputs;
  let final_state := final.2 in
  Some {| times := times;
          max_flow_height := Loop.max_height acc;
          max_velocity := Loop.max_velocity acc;
          max_pressure := Loop.max_pressure acc;
          final_h_solid := h_solid final_state;
          final_h_fluid := h_fluid final_state;
          final_u := u_solid final_state;
          final_v := v_solid final_state |}.

(** [(state.h_solid.sum() + state.h_fluid.sum()) * terrain.cell_size**2],
    the formula of [initial_volume] and of [final_volume], as the
    interpreter evaluates it. *)
Definition reported_volume (terrain : Terrain) (state : FlowState)
  : option float :=
  let depth := ndarray_sum (h_solid state) + ndarray_sum (h_fluid state) in
  (λ cell_area, depth * cell_area) <$> float_pow2 (cell_size terrain).

(** [np.sum(max_height > 0.1) * terrain.cell_size**2], likewise. *)
Definition reported_affected_area (terrain : Terrain) (max_height : Grid)
  : option float :=
  let cells :=
    count_true
      ((λ row : list float, (λ x, 0.1 <? x) <$> row) <$> max_height) in
  (λ cell_area, Float64.of_nat cells * cell_area)
    <$> float_pow2 (cell_size terrain).

(** [run_synthetic_test(output_dir, t_end, visualize)]: what it computes,
    with the statements of its own that can raise ([.min()] and [.max()] on
    an array without elements, [** 2], [outputs[-1]], [np.argmax]).  The
    constructors of the model and of the solver, the exporter and the
    figure live outside the drivers' file and are left out, so [Some] here
    does not say that they succeed. *)
Definition run_synthetic_test (t_end : float) : option Report :=
  let terrain := create_synthetic_slope 80 60 10.0 25.0 true in
  _ ← elevation_range terrain;
  let params := synthetic_params in
  let solver_config := synthetic_config in
  let release := create_release_zone terrain 15 30 8 5.0 in
  let state := initial_state terrain release in
  initial_volume ← reported_volume terrain state;
  _ ← np_max release;
  outputs ← run_simulation terrain params solver_config state t_end 1.0;
  results ← synthetic_results terrain params outputs;
  final ← last outputs;
  let max_height := max_flow_height results in
  final_volume ← reported_volume terrain final.2;
  affected_area ← reported_affected_area terrain max_height;
  runout ← runout_distance terrain max_height;
  _ ← printed_maxima (accumulate terrain params outputs);
  Some {| results := results;
          metadata := make_metadata terrain;
          initial_volume := initial_volume;
          final_volume := Some final_volume;
          affected_area := Some affected_area;
          approximate_runout := Some runout |}.

(** [run_dem_simulation(dem_file, output_dir, t_end, release_i, release_j,
    release_radius, release_height, ...)], in the same way; it prints no
    final statistics, and the 3D viewer is left out. *)
Definition run_dem_simulation (dem_file : string) (t_end : float)
    (release_i release_j : option Z) (release_radius : Z)
    (release_height : float) : option Report :=
  terrain ← Terrain_load dem_file;
  _ ← elevation_range terrain;
  let '(release_i, release_j) := release_center terrain release_i release_j in
  let params := dem_params in
  let solver_config := dem_config in
  let release :=
    create_release_zone terrain release_i release_j release_radius
      release_height in
  let state := initial_state terrain release in
  initial_volume ← reported_volume terrain state;
  outputs ← run_simulation terrain params solver_config state t_end
              (dem_output_interval t_end);
  results ← dem_results terrain params outputs;
  Some {| results := results;
          metadata := make_metadata terrain;
          initial_volume := initial_volume;
          final_volume := None;
          affected_area := None;
          approximate_runout := None |}.

End Drivers.

(** ** The solver, from its specification

    [NOCTVDSolver] (src/core/noc_tvd_solver.py) is a collaborator of the
    drivers.  Its time loop is modelled here from the per-step algorithm
    of the specification. *)

Module Solver.

(** Modelled from the spec: the two errors a run of [NOCTVDSolver] can end
    with (the solver's file is missing). *)
Inductive error := StalledSimulationError | NumericInstabilityError.

(** Modelled from the spec: the clamp of step 5 of [NOCTVDSolver]'s
    per-step algorithm (the solver's file is missing): a negative depth
    becomes zero and the velocity of that phase in that cell becomes zero. *)
Definition clamp_depth (h : float) : float := if h <? 0 then 0 else h.

(** Modelled from the spec: the velocity side of the same clamp (the
    solver's file is missing): [u] is a velocity component of the phase whose
    depth is [h]. *)
Definition clamp_velocity (h u : float) : float := if h <? 0 then 0 else u.

(** Modelled from the spec: the clamp of step 5 on a whole state (the
    solver's file is missing), each phase with its own depth. *)
Definition clamp_negative_depths (s : FlowState) : FlowState :=
  {| h_solid := grid_map clamp_depth (h_solid s);
     h_fluid := grid_map clamp_depth (h_fluid s);
     u_solid := elementwise clamp_velocity (h_solid s) (u_solid s);
     v_solid := elementwise clamp_velocity (h_solid s) (v_solid s);
     u_fluid := elementwise clamp_velocity (h_fluid s) (u_fluid s);
     v_fluid := elementwise clamp_velocity (h_fluid s) (v_fluid s) |}.

(** Modelled from the spec: the check behind [NumericInstabilityError] (the
    solver's file is missing), raised when a quantity is not finite despite
    the clamp. *)
Definition grid_finite (a : Grid) : bool := forallb (forallb is_finite) a.

(** Modelled from the spec: the same check on the six fields of a state
    (the solver's file is missing). *)
Definition state_finite (s : FlowState) : bool :=
  grid_finite (h_solid s) && grid_finite (h_fluid s)
  && grid_finite (u_solid s) && grid_finite (v_solid s)
  && grid_finite (u_fluid s) && grid_finite (v_fluid s).

(** Modelled from the spec: the loop variables of [run_simulation] (the
    solver's file is missing): the clock, the time of the last sample, the
    step counter, the number of consecutive zero timesteps, the live state,
    the samples recorded so far and whether the live state is still to be
    recorded. *)
Record run := {
  time : float;
  last_sample : float;
  step_count : nat;
  zero_steps : nat;
  state : FlowState;
  recorded : Outputs;
  pending : bool
}.

Section Run.

Variable terrain : Terrain.
Variable config : SolverConfig.

(** Modelled from the spec: steps 1, 2 and 4 of [NOCTVDSolver]'s per-step
    algorithm (the solver's file is missing, and the specification gives no
    formula for the fluxes and sources): the state advanced over [dt],
    before the clamp. *)
Variable advance : float → FlowState → FlowState.

(** Modelled from the spec: the largest wave speed over the cells, used by
    step 3 (the flow model's file is missing). *)
Variable max_wave_speed : FlowState → float.

(** Modelled from the spec: how many consecutive zero timesteps make a
    stalled run (the specification says a sustained number). *)
Variable stall_limit : nat.

Variable t_end : float.
Variable output_interval : float.

(** Modelled from the spec: step 3 of [NOCTVDSolver]'s per-step algorithm
    (the solver's file is missing): [cfl_number * cell_size / max wave
    speed], at most [max_timestep], and [max_timestep] when the flow is at
    rest. *)
Definition compute_dt (s : FlowState) : float :=
  let w := max_wave_speed s in
  if w =? 0 then max_timestep config
  else
    let dt := cfl_number config * cell_size terrain / w in
    if max_timestep config <? dt then max_timestep config else dt.

(** Modelled from the spec: steps 3 to 6 of [NOCTVDSolver]'s per-step
    algorithm (the solver's file is missing): the timestep, the update, the
    clamp, the clock and the sample taken once [output_interval] has
    elapsed since the last one. *)
Definition step (r : run) : error + run :=
  let dt := compute_dt (state r) in
  let zeros := if dt =? 0 then S (zero_steps r) else O in
  if bool_decide (stall_limit ≤ zeros)%nat then inl StalledSimulationError
  else
    let s := clamp_negative_depths (advance dt (state r)) in
    if negb (state_finite s) then inl NumericInstabilityError
    else
      let t := time r + dt in
      let sample := output_interval <=? t - last_sample r in
      inr {| time := t;
             last_sample := if sample then t else last_sample r;
             step_count := S (step_count r);
             zero_steps := zeros;
             state := s;
             recorded :=
               if sample then recorded r ++ [(t, s)] else recorded r;
             pending := negb sample |}.

(** Modelled from the spec: step 7 of [NOCTVDSolver]'s per-step algorithm
    (the solver's file is missing): the final state is always recorded. *)
Definition finish (r : run) : Outputs :=
  if pending r then recorded r ++ [(time r, state r)] else recorded r.

(** Modelled from the spec: the loop of [NOCTVDSolver.run_simulation] (the
    solver's file is missing): steps are repeated until [time >= t_end].
    [fuel] bounds the number of steps; [None] means it ran out. *)
Fixpoint iterate (fuel : nat) (r : run) : option (error + Outputs) :=
  if t_end <=? time r then Some (inr (finish r))
  else
    match fuel with
    | O => None
    | S fuel' =>
        match step r with
        | inl e => Some (inl e)
        | inr r' => iterate fuel' r'
        end
    end.

(** Modelled from the spec: the loop variables before the first step (the
    solver's file is missing); the caller's state is the live state. *)
Definition start (state0 : FlowState) : run :=
  {| time := 0; last_sample := 0; step_count := O; zero_steps := O;
     state := state0; recorded := []; pending := true |}.

(** Modelled from the spec: [NOCTVDSolver.run_simulation(state, t_end,
    output_interval, progress_callback)] (the solver's file is missing); the
    callback only reports progress and is left out. *)
Definition run_simulation (fuel : nat) (state0 : FlowState)
  : option (error + Outputs) :=
  iterate fuel (start state0).

End Run.

End Solver.

(** The depths of a state are not negative. *)
Definition depths_nonneg (s : FlowState) : Prop :=
  grid_all (λ h, (0 <=? h) = true) (h_solid s)
  ∧ grid_all (λ h, (0 <=? h) = true) (h_fluid s).

(** The samples of a run, and its live state, have no negative depth. *)
Definition run_ok (r : Solver.run) : Prop :=
  depths_nonneg (Solver.state r)
  ∧ Forall (λ o, depths_nonneg o.2) (Solver.recorded r).

(** The four arrays the drivers read from a snapshot have the terrain's
    shape. *)
Definition snapshot_shape (terrain : Terrain) (s : FlowState) : Prop :=
  has_shape (rows terrain) (cols terrain) (h_solid s)
  ∧ has_shape (rows terrain) (cols terrain) (h_fluid s)
  ∧ has_shape (rows terrain) (cols terrain) (u_solid s)
  ∧ has_shape (rows terrain) (cols terrain) (v_solid s).

(** The quantities whose maxima the drivers export, at one cell of one
    snapshot: the total depth, the velocity magnitude of the solid phase and
    the impact pressure given by [pressure]. *)
Definition depth_at (i j : nat) (s : FlowState) : float :=
  value_at (h_solid s) i j + value_at (h_fluid s) i j.





(** ** Sample data, on which the theorems are exercised *)

Definition sample_terrain : Terrain :=
  {| rows := 1; cols := 2; cell_size := 10.0; elevation := [[20.0; 10.0]];
     x_origin := 500.0; y_origin := 4000.0 |}.

Definition sample_first : FlowState :=
  {| h_solid := [[3.5; 0]]; h_fluid := [[1.5; 0]];
     u_solid := [[0; 0]]; v_solid := [[0; 0]];
     u_fluid := [[0; 0]]; v_fluid := [[0; 0]] |}.

Definition sample_second : FlowState :=
  {| h_solid := [[1.4; 2.1]]; h_fluid := [[0.6; 0.9]];
     u_solid := [[3.0; 4.0]]; v_solid := [[4.0; 3.0]];
     u_fluid := [[1.0; 1.0]]; v_fluid := [[2.0; 2.0]] |}.

Definition sample_outputs : Outputs :=
  [(1.0, sample_first); (2.0, sample_second)].



(** A release field with the height 3.0 in one cell, as the centre cell of
    [run_dem_simulation] with [release_height = 3.0]. *)
Definition sample_release : Grid := [[3.0; 0]].

(** A stand-in for [compute_impact_pressure]: the dynamic pressure of the
    solid phase, in kPa. *)
Definition sample_pressure (params : FlowParameters) (s : FlowState) : Grid :=
  grid_map (λ v, 0.5 * solid_density params * (v * v) / 1000) (speed s).

(** Stand-ins for the solver's update and wave speed, on which the solver
    theorems are exercised: every depth is lowered by [dt], so that shallow
    cells go negative before the clamp, and the solid phase gains [dt] of
    velocity; the wave speed is 20 m/s. *)
Definition sample_advance (dt : float) (s : FlowState) : FlowState :=
  {| h_solid := grid_map (λ h, h - dt) (h_solid s);
     h_fluid := grid_map (λ h, h - dt) (h_fluid s);
     u_solid := grid_map (λ u, u + dt) (u_solid s);
     v_solid := v_solid s; u_fluid := u_fluid s; v_fluid := v_fluid s |}.

Definition sample_wave_speed (s : FlowState) : float := 20.0.

(** Where the depth [h] of a phase is negative before the clamp, its depth
    [h'] and velocity components [u'], [v'] are zero after it. *)
Definition clamped_phase_zeroed (h u v h' u' v' : Grid) : Prop :=
  ∀ i j x, cell h i j = Some x → (x <? 0) = true →
    cell h' i j = Some 0
    ∧ (is_Some (cell u i j) → cell u' i j = Some 0)
    ∧ (is_Some (cell v i j) → cell v' i j = Some 0).

(** The documented physical ranges: both densities positive and the basal
    friction angle in [[0, 90)] degrees; the CFL number in [(0, 1]]. *)
Definition params_in_range (p : FlowParameters) : bool :=
  (0 <? solid_density p) && (0 <? fluid_density p)
  && (0 <=? basal_friction_angle p) && (basal_friction_angle p <? 90).

Definition config_in_range (c : SolverConfig) : bool :=
  (0 <? cfl_number c) && (cfl_number c <=? 1).

(** ** The rest of the drivers' file, the command-line front ends and the
    build script *)

(** A binary64 value that is at least zero: a zero of either sign, or a
    finite or infinite value whose sign bit is clear. *)
Definition SFge0 (f : spec_float) : Prop :=
  match f with
  | S754_zero _ => True
  | S754_infinity s | S754_finite s _ _ => s = false
  | S754_nan => False
  end.

(** *** The progress bar of [progress_callback] (the same in both
    drivers) *)

Module Progress.







End Progress.

(** *** [test_all] *)

Module Tests.

(** What calling one test does: it returns a value, of which only the
    truth value is used, it raises an [Exception], or it raises something
    that [except Exception] does not catch. *)
Inductive outcome := Returned (truthy : bool) | RaisedException | RaisedOther.

(** What the first loop records for a test that does not stop it: the
    truth value of what the test returned, [False] when it raised. *)
Definition recorded_result (o : outcome) : bool :=
  match o with
  | Returned result => result
  | RaisedException | RaisedOther => false
  end.

(** The body of [for name, test_func in tests], in the first loop. *)
Definition run_one (results : option (list (string * bool)))
    (test : string * outcome) : option (list (string * bool)) :=
  results ← results;
  match test.2 with
  | Returned result => Some (results ++ [(test.1, result)])
  | RaisedException => Some (results ++ [(test.1, false)])
  | RaisedOther => None
  end.

(** The second loop: [passed] counts the results that are true. *)
Definition count_passed (results : list (string * bool)) : nat :=
  foldl (λ passed r, if r.2 : bool then S passed else passed) O results.

(** The two loops on a list of tests; the result is the pair printed as
    [Total: passed/len(results)]. *)
Definition run_tests (tests : list (string * outcome))
  : option (list (string * bool) * nat) :=
  results ← foldl run_one (Some []) tests;
  Some (results, count_passed results).

(** The names of the eight tests, in the order of the list. *)
Definition test_names : list string :=
  ["Terrain"; "Flow Model"; "Solver"; "Rheology"; "Entrainment";
   "Raster I/O"; "Parameters"; "Results"]%string.

(** [test_all()], given what each test does. *)
Definition test_all (outcome_of : string → outcome)
  : option (list (string * bool) * nat) :=
  run_tests ((λ name, (name, outcome_of name)) <$> test_names).

End Tests.

(** *** The command line of [run_simulation.py] and of [pydebflow.py] *)

(** A call of one of the two drivers, with its arguments. *)
Inductive driver_call :=
  | call_run_dem_simulation (dem_file output_dir : string) (t_end : float)
      (release_i release_j : option Z) (release_radius : Z)
      (release_height : float) (animate_3d export_video : bool)
  | call_run_synthetic_test (output_dir : string) (t_end : float)
      (visualize : bool).

(** The truth value of an optional string argument: [None] and the empty
    string are false. *)
Definition given (s : option string) : bool :=
  match s with
  | None => false
  | Some s => negb (String.eqb s "")
  end.

Module RunSimulationCli.

(** The namespace that [parser.parse_args()] returns. *)
Record args := {
  synthetic_test : bool;
  dem_file : option string;
  t_end : float;
  output_dir : string;
  release_row : option Z;
  release_col : option Z;
  release_radius : Z;
  release_height : float;
  animate_3d : bool;
  export_video : bool;
  no_viz : bool;
  test_all : bool;
  test_flow_model : bool;
  test_solver : bool;
  test_rheology : bool;
  test_3d : bool
}.

Inductive action :=
  | run (c : driver_call)
  | run_test_all | run_test_flow_model | run_test_solver
  | run_test_rheology | run_test_dem_viewer
  | print_help.

(** The chain of [if]/[elif] of [main()]. *)
Definition main (a : args) : action :=
  if given (dem_file a) then
    run (call_run_dem_simulation (default ""%string (dem_file a))
           (output_dir a) (t_end a) (release_row a) (release_col a)
           (release_radius a) (release_height a)
           (animate_3d a && negb (no_viz a)) (export_video a))
  else if synthetic_test a then
    run (call_run_synthetic_test (output_dir a) (t_end a) (negb (no_viz a)))
  else if test_all a then run_test_all
  else if test_flow_model a then run_test_flow_model
  else if test_solver a then run_test_solver
  else if test_rheology a then run_test_rheology
  else if test_3d a then run_test_dem_viewer
  else print_help.

(** The namespace of a command line that gives at most [--dem-file],
    [--synthetic-test], [--animate-3d], [--export-video] and [--no-viz]:
    the other fields are the defaults of the parser. *)
Definition namespace (dem_file : option string)
    (synthetic_test animate_3d export_video no_viz : bool) : args := {|
  synthetic_test := synthetic_test; dem_file := dem_file; t_end := 30.0;
  output_dir := "./output"; release_row := None; release_col := None;
  release_radius := 10; release_height := 5.0;
  animate_3d := animate_3d; export_video := export_video; no_viz := no_viz;
  test_all := false; test_flow_model := false; test_solver := false;
  test_rheology := false; test_3d := false
|}.

End RunSimulationCli.

Module PydebflowCli.

(** The namespace of the [simulate] sub-command. *)
Record args := {
  dem : option string;
  synthetic : bool;
  time : float;
  output : string;
  release_row : option Z;
  release_col : option Z;
  release_radius : Z;
  release_height : float;
  animate : bool;
  video : bool;
  no_viz : bool
}.

(** [cmd_simulate(args)]: a driver call, or the usage message followed by
    [sys.exit(1)] ([None]). *)
Definition cmd_simulate (a : args) : option driver_call :=
  if synthetic a then
    Some (call_run_synthetic_test (output a) (time a) (negb (no_viz a)))
  else if given (dem a) then
    Some (call_run_dem_simulation (default ""%string (dem a)) (output a)
            (time a) (release_row a) (release_col a) (release_radius a)
            (release_height a) (animate a && negb (no_viz a)) (video a))
  else None.

(** The namespace of a [simulate] command line that gives at most [--dem],
    [--synthetic], [--animate], [--video] and [--no-viz]: the other fields
    are the defaults of the parser. *)
Definition namespace (dem : option string)
    (synthetic animate video no_viz : bool) : args := {|
  dem := dem; synthetic := synthetic; time := 30.0; output := "./output";
  release_row := None; release_col := None; release_radius := 10;
  release_height := 5.0; animate := animate; video := video; no_viz := no_viz
|}.

End PydebflowCli.

(** The same options given to the two front ends. *)
Definition same_options (a : RunSimulationCli.args) (b : PydebflowCli.args)
  : Prop :=
  RunSimulationCli.dem_file a = PydebflowCli.dem b
  ∧ RunSimulationCli.synthetic_test a = PydebflowCli.synthetic b
  ∧ RunSimulationCli.t_end a = PydebflowCli.time b
  ∧ RunSimulationCli.output_dir a = PydebflowCli.output b
  ∧ RunSimulationCli.release_row a = PydebflowCli.release_row b
  ∧ RunSimulationCli.release_col a = PydebflowCli.release_col b
  ∧ RunSimulationCli.release_radius a = PydebflowCli.release_radius b
  ∧ RunSimulationCli.release_height a = PydebflowCli.release_height b
  ∧ RunSimulationCli.animate_3d a = PydebflowCli.animate b
  ∧ RunSimulationCli.export_video a = PydebflowCli.video b
  ∧ RunSimulationCli.no_viz a = PydebflowCli.no_viz b.

(** What a driver shows or writes besides its results: the figure of
    [run_synthetic_test], and the 3D viewer of [run_dem_simulation]. *)
Inductive display :=
  | save_figure | plt_show
  | load_snapshots | export_animation | show_static.

(** [if visualize:] at the end of [run_synthetic_test]. *)
Definition synthetic_display (visualize : bool) : list display :=
  if visualize then [save_figure; plt_show] else [].

(** Step 6 of [run_dem_simulation]; [viewer] tells whether the import of
    [DEMViewer3D] succeeds (an [ImportError] only prints a note). *)
Definition dem_display (viewer animate_3d export_video : bool)
  : list display :=
  if animate_3d || export_video then
    if viewer then
      [load_snapshots]
      ++ (if export_video then [export_animation] else [])
      ++ (if animate_3d then [show_static] else [])
    else []
  else [].

Definition display_of (viewer : bool) (c : driver_call) : list display :=
  match c with
  | call_run_dem_simulation _ _ _ _ _ _ _ animate_3d export_video =>
      dem_display viewer animate_3d export_video
  | call_run_synthetic_test _ _ visualize => synthetic_display visualize
  end.

(** Whether a call is a call of [run_dem_simulation]. *)
Definition is_dem_call (c : driver_call) : bool :=
  match c with
  | call_run_dem_simulation _ _ _ _ _ _ _ _ _ => true
  | call_run_synthetic_test _ _ _ => false
  end.

(** *** The build script *)

Module Build.

Definition required : list string := ["numpy"; "matplotlib"; "scipy"]%string.

(** The list [missing] of [check_dependencies()]; [can_import] tells
    whether [__import__(pkg)] succeeds. *)
Definition missing_packages (can_import : string → bool) : list string :=
  let missing :=
    foldl (λ missing pkg, if can_import pkg then missing else missing ++ [pkg])
          [] required in
  if can_import "PyInstaller"%string then missing
  else missing ++ ["pyinstaller"%string].

(** [check_dependencies()]: [False] when something is missing. *)
Definition check_dependencies (can_import : string → bool) : bool :=
  match missing_packages can_import with
  | [] => true
  | _ :: _ => false
  end.

(** [options.remove(x)]: the list without the first occurrence of [x];
    [ValueError] ([None]) when there is none. *)
Fixpoint list_remove (x : string) (l : list string) : option (list string) :=
  match l with
  | [] => None
  | y :: l' => if String.eqb x y then Some l' else cons y <$> list_remove x l'
  end.

(** The PyInstaller options before the optional packages are looked at. *)
Definition base_options : list string :=
  ["main.py"; "--name=PyDebFlow"; "--onefile"; "--windowed"; "--noconfirm";
   "--add-data=src;src";
   "--hidden-import=numpy"; "--hidden-import=scipy";
   "--hidden-import=matplotlib";
   "--hidden-import=matplotlib.backends.backend_qtagg";
   "--exclude-module=tkinter"; "--exclude-module=test";
   "--exclude-module=unittest"]%string.

(** The list [options] of [build_executable()] when PyInstaller is run. *)
Definition build_options (can_import : string → bool)
  : option (list string) :=
  options ←
    (if can_import "PyQt6"%string then
       Some (base_options
             ++ ["--hidden-import=PyQt6"; "--hidden-import=PyQt6.QtWidgets";
                 "--hidden-import=PyQt6.QtCore";
                 "--hidden-import=PyQt6.QtGui"]%string)
     else list_remove "--windowed" base_options);
  Some (if can_import "numba"%string
        then options ++ ["--hidden-import=numba"%string] else options).

(** The steps of the build, in the order [main()] takes them. *)
Inductive step :=
  | step_check_dependencies | step_clean_build | step_build_executable
  | step_verify_build | step_create_distribution.

#[global] Instance step_eq_dec : EqDecision step.
Proof. solve_decision. Defined.

(** [main()]: the exit code and the steps taken.  [build_ok] tells whether
    PyInstaller returns 0 and [verify_ok] whether the executable is found
    in [dist/]. *)
Definition main (can_import : string → bool) (build_ok verify_ok : bool)
  : Z * list step :=
  if negb (check_dependencies can_import) then
    (1%Z, [step_check_dependencies])
  else if negb build_ok then
    (1%Z, [step_check_dependencies; step_clean_build; step_build_executable])
  else if negb verify_ok then
    (1%Z, [step_check_dependencies; step_clean_build; step_build_executable;
           step_verify_build])
  else
    (0%Z, [step_check_dependencies; step_clean_build; step_build_executable;
           step_verify_build; step_create_distribution]).

End Build.

(** * Properties *)

(** ** Binary64 order and sign facts, from the specification of the
    primitive operations *)

Ltac cmp_cases :=
  repeat match goal with
  | |- context [Z.compare ?a ?b] => destruct (Z.compare_spec a b); subst
  | H : context [Z.compare ?a ?b] |- _ => destruct (Z.compare_spec a b); subst
  | |- context [Pos.compare_cont Eq ?a ?b] =>
      change (Pos.compare_cont Eq a b) with (Pos.compare a b);
      destruct (Pos.compare_spec a b); subst
  | H : context [Pos.compare_cont Eq ?a ?b] |- _ =>
      change (Pos.compare_cont Eq a b) with (Pos.compare a b) in H;
      destruct (Pos.compare_spec a b); subst
  end.

Ltac sf_cases a := destruct a as [[]|[]| |[] ? ?].

Section Binary64.

Import Float64.

Lemma SFcompare_refl f : f ≠ S754_nan → SFcompare f f = Some Eq.
Proof.
  sf_cases f; simpl; try congruence;
    intros _; rewrite Z.compare_refl, Pos.compare_cont_refl; reflexivity.
Qed.

Lemma SFcompare_nan f g : SFcompare f g = None ↔ f = S754_nan ∨ g = S754_nan.
Proof.
  sf_cases f; sf_cases g; simpl; split; intros H;
    try discriminate; try (destruct H; discriminate); auto.
Qed.

Lemma SFcompare_antisym f g : SFcompare g f = CompOpp <$> SFcompare f g.
Proof.
  sf_cases f; sf_cases g; simpl; try reflexivity;
    cmp_cases; simpl; try reflexivity; try lia.
Qed.

Lemma SFleb_trans a b c :
  SFleb a b = true → SFleb b c = true → SFleb a c = true.
Proof.
  unfold SFleb.
  sf_cases a; sf_cases b; sf_cases c; simpl;
    try congruence; cmp_cases; simpl; try congruence; try lia.
Qed.

(** Rounding keeps the sign it is given. *)
Lemma binary_round_aux_nn m e l : SFnn (binary_round_aux prec emax false m e l).
Proof.
  unfold binary_round_aux.
  destruct (shr_fexp prec emax m e l) as [mrs' e'].
  destruct (shr_fexp prec emax _ e' loc_Exact) as [mrs'' e''].
  destruct (shr_m mrs''); simpl; auto.
  destruct (Z.leb _ _); simpl; auto.
Qed.

Lemma SFmul_self_nn f : SFnn (SF64mul f f).
Proof. sf_cases f; simpl; auto; apply binary_round_aux_nn. Qed.



Lemma SFnn_leb f : SFnn f ↔ f = S754_nan ∨ SFleb (S754_zero false) f = true.
Proof.
  unfold SFleb. sf_cases f; simpl; split; auto; intros H;
    try discriminate; destruct H; discriminate.
Qed.

Lemma is_nan_spec x : is_nan x = true ↔ Prim2SF x = S754_nan.
Proof.
  unfold is_nan. rewrite eqb_spec. unfold SFeqb.
  assert (Prim2SF x = S754_nan ∨ Prim2SF x ≠ S754_nan) as [E|E]
    by (destruct (Prim2SF x); auto; right; discriminate).
  - rewrite E. simpl. tauto.
  - rewrite SFcompare_refl by done. simpl. split; [done|tauto].
Qed.

Lemma is_nan_false x : is_nan x = false ↔ Prim2SF x ≠ S754_nan.
Proof. rewrite <- is_nan_spec. destruct (is_nan x); split; congruence. Qed.

Lemma nonneg_or_nan_spec x : nonneg_or_nan x ↔ SFnn (Prim2SF x).
Proof.
  unfold nonneg_or_nan.
  rewrite SFnn_leb, is_nan_spec, leb_spec. reflexivity.
Qed.


Lemma square_nonneg x : nonneg_or_nan (square x).
Proof.
  unfold square. rewrite nonneg_or_nan_spec, mul_spec. apply SFmul_self_nn.
Qed.


Lemma leb_not_nan x y :
  (x <=? y) = true → is_nan x = false ∧ is_nan y = false.
Proof.
  rewrite leb_spec, !is_nan_false. unfold SFleb.
  destruct (SFcompare _ _) eqn:E; [|done]. intros _.
  split; intros N; rewrite N in E; [|destruct (Prim2SF x)]; discriminate.
Qed.

Lemma leb_trans x y z :
  (x <=? y) = true → (y <=? z) = true → (x <=? z) = true.
Proof. rewrite !leb_spec. apply SFleb_trans. Qed.

Lemma leb_total x y :
  is_nan x = false → is_nan y = false →
  (x <=? y) = true ∨ (y <=? x) = true.
Proof.
  rewrite !is_nan_false, !leb_spec. unfold SFleb. intros Hx Hy.
  rewrite (SFcompare_antisym (Prim2SF x) (Prim2SF y)).
  destruct (SFcompare (Prim2SF x) (Prim2SF y)) as [[]|] eqn:E; simpl; auto.
  apply SFcompare_nan in E. tauto.
Qed.

Lemma leb_refl x : is_nan x = false → (x <=? x) = true.
Proof. intros H. destruct (leb_total x x H H); done. Qed.

Lemma leb_antisym x y :
  (x <=? y) = true → (y <=? x) = true → (x =? y) = true.
Proof.
  rewrite !leb_spec, eqb_spec. unfold SFleb, SFeqb.
  rewrite (SFcompare_antisym (Prim2SF x) (Prim2SF y)).
  destruct (SFcompare (Prim2SF x) (Prim2SF y)) as [[]|]; simpl; done.
Qed.

Lemma not_ltb_leb x y :
  is_nan x = false → is_nan y = false → (x <? y) = false → (y <=? x) = true.
Proof.
  rewrite !is_nan_false, ltb_spec, leb_spec. unfold SFltb, SFleb.
  intros Hx Hy.
  rewrite (SFcompare_antisym (Prim2SF x) (Prim2SF y)).
  destruct (SFcompare (Prim2SF x) (Prim2SF y)) as [[]|] eqn:E; simpl; try done.
  apply SFcompare_nan in E. tauto.
Qed.

Lemma is_finite_not_nan x : is_finite x = true → is_nan x = false.
Proof.
  unfold is_finite. destruct (is_nan x); simpl; [discriminate|done].
Qed.

End Binary64.

(** ** The constants of the drivers *)

(** C7: the [FlowParameters] and [SolverConfig] values that
    [run_synthetic_test] and [run_dem_simulation] construct lie in the
    documented ranges: densities 2500 and 1100 are positive, the friction
    angle 22 is in [[0, 90)], and the CFL number 0.4 is in [(0, 1]]. *)
Theorem driver_constants_in_range :
  Forall (λ p, params_in_range p = true
               ∧ solid_density p = 2500.0 ∧ fluid_density p = 1100.0
               ∧ basal_friction_angle p = 22.0)
         [synthetic_params; dem_params]
  ∧ Forall (λ c, config_in_range c = true ∧ cfl_number c = 0.4)
           [synthetic_config; dem_config].
Proof.
  split; repeat constructor.
Qed.

(** ** The release zone of [run_dem_simulation] *)

(** C10: a coordinate of the release-zone centre that the caller leaves out
    is computed from the terrain extent, the row as [rows // 5] and the
    column as [cols // 2] (floor divisions); a coordinate that is supplied
    is used unchanged. *)
Theorem release_center_default terrain :
  let r := Z.of_nat (rows terrain) in
  let c := Z.of_nat (cols terrain) in
  release_center terrain None None = ((r / 5)%Z, (c / 2)%Z)
  ∧ (∀ i, release_center terrain (Some i) None = (i, (c / 2)%Z))
  ∧ (∀ j, release_center terrain None (Some j) = ((r / 5)%Z, j))
  ∧ (∀ i j, release_center terrain (Some i) (Some j) = (i, j))
  ∧ (5 * (r / 5) ≤ r < 5 * (r / 5) + 5)%Z
  ∧ (2 * (c / 2) ≤ c < 2 * (c / 2) + 2)%Z.
Proof.
  cbv zeta. repeat split; try reflexivity.
  all: try (apply Z.mul_div_le; lia).
  - pose proof (Z.mod_pos_bound (Z.of_nat (rows terrain)) 5 ltac:(lia)).
    pose proof (Z.div_mod (Z.of_nat (rows terrain)) 5 ltac:(lia)). lia.
  - pose proof (Z.mod_pos_bound (Z.of_nat (cols terrain)) 2 ltac:(lia)).
    pose proof (Z.div_mod (Z.of_nat (cols terrain)) 2 ltac:(lia)). lia.
Qed.

(** ** [np.maximum] and its running fold *)

Section Maximum.

Import Float64.

Lemma np_maximum_nan_l a b : is_nan a = true → np_maximum a b = a.
Proof. unfold np_maximum. intros ->. by rewrite orb_true_r. Qed.

Lemma np_maximum_nan_r a b :
  is_nan a = false → is_nan b = true → np_maximum a b = b.
Proof.
  unfold np_maximum. intros -> Hb. rewrite orb_false_r.
  destruct (b <=? a) eqn:E; [|done].
  apply leb_not_nan in E as [E _]. congruence.
Qed.

(** Without NaNs [np.maximum] returns one of its arguments, which the other
    does not exceed. *)
Lemma np_maximum_cases a b :
  is_nan a = false → is_nan b = false →
  (np_maximum a b = a ∧ (b <=? a) = true)
  ∨ (np_maximum a b = b ∧ (a <=? b) = true).
Proof.
  unfold np_maximum. intros Ha Hb. rewrite Ha, orb_false_r.
  destruct (b <=? a) eqn:E; [by left|right].
  destruct (leb_total a b Ha Hb); [done|congruence].
Qed.

Lemma foldl_maximum_nan a vs :
  is_nan a = true → is_nan (foldl np_maximum a vs) = true.
Proof.
  revert a. induction vs as [|v vs IH]; intros a Ha; simpl; [done|].
  apply IH. by rewrite np_maximum_nan_l.
Qed.

Lemma foldl_maximum_some_nan a vs :
  existsb is_nan vs = true → is_nan (foldl np_maximum a vs) = true.
Proof.
  revert a. induction vs as [|v vs IH]; intros a; simpl; [done|].
  destruct (is_nan a) eqn:Ha.
  { intros _. apply foldl_maximum_nan. by rewrite np_maximum_nan_l. }
  destruct (is_nan v) eqn:Hv; simpl.
  { intros _. apply foldl_maximum_nan. by rewrite np_maximum_nan_r. }
  apply IH.
Qed.

(** Without NaNs the fold ends on its start value or on a value of the list,
    and nothing it has seen exceeds it. *)
Lemma foldl_maximum_bounds a vs :
  is_nan a = false → existsb is_nan vs = false →
  let r := foldl np_maximum a vs in
  is_nan r = false ∧ (a <=? r) = true
  ∧ Forall (λ v, (v <=? r) = true) vs ∧ (r = a ∨ r ∈ vs).
Proof.
  revert a. induction vs as [|v vs IH]; intros a Ha Hvs; simpl.
  { split_and!; [done|by apply leb_refl|constructor|by left]. }
  simpl in Hvs. apply orb_false_iff in Hvs as [Hv Hvs].
  assert (is_nan (np_maximum a v) = false ∧ (a <=? np_maximum a v) = true
          ∧ (v <=? np_maximum a v) = true
          ∧ (np_maximum a v = a ∨ np_maximum a v = v)) as (Hm & Hma & Hmv & Hmc).
  { destruct (np_maximum_cases a v Ha Hv) as [[-> ?]|[-> ?]];
      split_and!; auto using leb_refl. }
  destruct (IH _ Hm Hvs) as (Hr & Hle & Hall & Hin).
  split_and!; [done|by eapply leb_trans| |].
  - constructor; [by eapply leb_trans|done].
  - destruct Hin as [->|Hin]; [|right; by constructor].
    destruct Hmc as [->| ->]; [by left|right; constructor].
Qed.

(** The running maximum started at zero is the maximum of the values seen,
    as soon as there is one and none is negative. *)
Lemma foldl_maximum_zero vs :
  vs ≠ [] → Forall nonneg_or_nan vs →
  is_maximum_of (foldl np_maximum 0 vs) vs.
Proof.
  intros Hne Hnn. unfold is_maximum_of.
  destruct (existsb is_nan vs) eqn:Hnan.
  { by apply foldl_maximum_some_nan. }
  destruct (foldl_maximum_bounds 0 vs eq_refl Hnan) as (Hr & Hle & Hall & Hin).
  split; [|done].
  destruct Hin as [E|Hin].
  - destruct vs as [|v vs]; [done|]. exists v. split; [constructor|].
    rewrite E in *. apply Forall_cons in Hall as [Hv _].
    apply Forall_cons in Hnn as [[Hv'|Hv'] _].
    + apply leb_not_nan in Hv as [? _]. congruence.
    + by apply leb_antisym.
  - eexists. split; [done|]. by apply leb_antisym; apply leb_refl.
Qed.

End Maximum.

(** ** Arrays, cell by cell *)

Section Grids.

Import Float64.

Lemma cell_elementwise f a b i j :
  cell (elementwise f a b) i j
  = x ← cell a i j; y ← cell b i j; Some (f x y).
Proof.
  unfold cell, elementwise. rewrite lookup_zip_with.
  destruct (a !! i) as [ra|]; simpl; [|done].
  destruct (b !! i) as [rb|]; simpl.
  - by rewrite lookup_zip_with.
  - by destruct (ra !! j).
Qed.

Lemma cell_grid_map f a i j : cell (grid_map f a) i j = f <$> cell a i j.
Proof.
  unfold cell, grid_map. rewrite list_lookup_fmap.
  destruct (a !! i); simpl; [apply list_lookup_fmap|done].
Qed.

Lemma cell_np_zeros rows cols i j :
  (i < rows)%nat → (j < cols)%nat → cell (np_zeros rows cols) i j = Some 0.
Proof.
  intros Hi Hj. unfold cell, np_zeros.
  rewrite lookup_replicate_2 by done. simpl.
  by rewrite lookup_replicate_2.
Qed.

Lemma has_shape_cell rows cols a i j :
  has_shape rows cols a → (i < rows)%nat → (j < cols)%nat →
  is_Some (cell a i j).
Proof.
  intros [Hr Hc] Hi Hj. unfold cell.
  destruct (lookup_lt_is_Some_2 a i) as [row Hrow]; [lia|].
  rewrite Hrow. simpl. apply lookup_lt_is_Some_2.
  rewrite Forall_lookup in Hc. by rewrite (Hc _ _ Hrow).
Qed.

Lemma grid_all_cell P a i j x : grid_all P a → cell a i j = Some x → P x.
Proof.
  unfold grid_all, cell. intros Ha Hx.
  destruct (a !! i) as [row|] eqn:Hrow; simpl in Hx; [|done].
  rewrite Forall_lookup in Ha. specialize (Ha _ _ Hrow).
  rewrite Forall_lookup in Ha. eauto.
Qed.

Lemma value_at_Some a i j x : cell a i j = Some x → value_at a i j = x.
Proof. unfold value_at. by intros ->. Qed.

Lemma cell_h_total s i j :
  is_Some (cell (h_solid s) i j) → is_Some (cell (h_fluid s) i j) →
  cell (h_total s) i j = Some (depth_at i j s).
Proof.
  intros [x Hx] [y Hy]. unfold h_total, depth_at.
  rewrite cell_elementwise, Hx, Hy.
  by rewrite (value_at_Some _ _ _ _ Hx), (value_at_Some _ _ _ _ Hy).
Qed.


(** A cell of the element-wise running maximum is the running maximum of
    that cell. *)
Lemma cell_foldl_maximum {X} (g : X → Grid) (xs : list X) init i j m0 :
  cell init i j = Some m0 →
  Forall (λ x, is_Some (cell (g x) i j)) xs →
  cell (foldl (λ acc x, elementwise np_maximum acc (g x)) init xs) i j
  = Some (foldl np_maximum m0 ((λ x, value_at (g x) i j) <$> xs)).
Proof.
  revert init m0. induction xs as [|x xs IH]; intros init m0 Hinit Hxs.
  { done. }
  apply Forall_cons in Hxs as [[v Hv] Hxs]. simpl.
  apply IH; [|done].
  by rewrite cell_elementwise, Hinit, Hv, (value_at_Some _ _ _ _ Hv).
Qed.

End Grids.

(** ** The post-processing loop *)

Section PostProcessing.

Import Float64.

Variable compute_impact_pressure : FlowParameters → FlowState → Grid.


(** The three accumulators evolve independently of one another. *)
Lemma foldl_loop_body params outs acc :
  foldl (loop_body compute_impact_pressure params) acc outs
  = {| Loop.max_height :=
         foldl (λ m o, elementwise np_maximum m (h_total o.2))
               (Loop.max_height acc) outs;
       Loop.max_velocity :=
         foldl (λ m o, elementwise np_maximum m (speed o.2))
               (Loop.max_velocity acc) outs;
       Loop.max_pressure :=
         foldl (λ m o, elementwise np_maximum m
                         (compute_impact_pressure params o.2))
               (Loop.max_pressure acc) outs |}.
Proof.
  revert acc. induction outs as [|o outs IH]; intros [mh mv mp]; simpl.
  - done.
  - by rewrite IH.
Qed.

(** The loop of [run_dem_simulation] computes the maxima of the loop of
    [run_synthetic_test], and its [times] is the list of sample times. *)
Lemma foldl_dem_loop_body params outs acc snapshots ts :
  foldl (dem_loop_body compute_impact_pressure params) (acc, snapshots, ts)
        outs
  = (foldl (loop_body compute_impact_pressure params) acc outs,
     snapshots ++ ((λ o, h_total o.2) <$> outs), ts ++ (fst <$> outs)).
Proof.
  revert acc snapshots ts.
  induction outs as [|o outs IH]; intros acc snapshots ts; simpl.
  - by rewrite !app_nil_r.
  - rewrite IH. by rewrite <- !app_assoc.
Qed.

Lemma dem_results_synthetic terrain params outputs :
  dem_results compute_impact_pressure terrain params outputs
  = synthetic_results compute_impact_pressure terrain params outputs.
Proof.
  unfold dem_results, dem_accumulate.
  by rewrite foldl_dem_loop_body.
Qed.

(** One accumulator at one cell: started from [np.zeros], it holds the
    maximum of the values [q] that the arrays [g] hold at that cell. *)
Lemma cell_running_maximum {X} (g : X → Grid) (q : X → float)
    rows cols (xs : list X) i j :
  (i < rows)%nat → (j < cols)%nat → xs ≠ [] →
  Forall (λ x, cell (g x) i j = Some (q x) ∧ nonneg_or_nan (q x)) xs →
  ∃ m, cell (foldl (λ acc x, elementwise np_maximum acc (g x))
                   (np_zeros rows cols) xs) i j = Some m
       ∧ is_maximum_of m (q <$> xs).
Proof.
  intros Hi Hj Hne Hxs. eexists. split.
  - apply cell_foldl_maximum; [by apply cell_np_zeros|].
    eapply Forall_impl; [done|]. intros x [-> _]. done.
  - replace ((λ x, value_at (g x) i j) <$> xs) with (q <$> xs).
    + apply foldl_maximum_zero; [by destruct xs|].
      apply Forall_fmap. eapply Forall_impl; [done|]. by intros x [_ ?].
    + apply Forall_fmap_ext_1. eapply Forall_impl; [done|].
      intros x [Hx _]. by rewrite (value_at_Some _ _ _ _ Hx).
Qed.




(** C4: whenever the post-processing completes (the output sequence is not
    empty), both drivers hand the exporter the same [SimulationResults]:
    [times] lists the snapshot times in the order of the sequence, the
    [final_*] fields are the solid and fluid depths and the solid velocity
    components of the last snapshot, the [max_*] fields are the loop's
    accumulators, and the metadata has exactly the keys [cell_size],
    [x_origin] and [y_origin], with the terrain's values. *)
Theorem results_handed_to_exporter terrain params outputs :
  outputs ≠ [] →
  ∃ res final,
    last outputs = Some final
    ∧ synthetic_results compute_impact_pressure terrain params outputs
      = Some res
    ∧ dem_results compute_impact_pressure terrain params outputs = Some res
    ∧ times res = fst <$> outputs
    ∧ final_h_solid res = h_solid final.2
    ∧ final_h_fluid res = h_fluid final.2
    ∧ final_u res = u_solid final.2
    ∧ final_v res = v_solid final.2
    ∧ (let acc := accumulate compute_impact_pressure terrain params outputs in
       max_flow_height res = Loop.max_height acc
       ∧ max_velocity res = Loop.max_velocity acc
       ∧ max_pressure res = Loop.max_pressure acc)
    ∧ dom (make_metadata terrain)
      = ({[ "cell_size"; "x_origin"; "y_origin" ]} : gset string)%string
    ∧ make_metadata terrain !! "cell_size"%string = Some (cell_size terrain)
    ∧ make_metadata terrain !! "x_origin"%string = Some (x_origin terrain)
    ∧ make_metadata terrain !! "y_origin"%string = Some (y_origin terrain).
Proof.
  intros Hne. apply last_is_Some in Hne as [final Hlast].
  eexists _, final. split; [done|].
  rewrite dem_results_synthetic. unfold synthetic_results.
  rewrite Hlast. simpl. split_and!; reflexivity.
Qed.



End PostProcessing.

(** The hypotheses of the theorems, checked on the sample data by
    evaluation. *)
Ltac check_sample :=
  repeat first [ reflexivity | right; reflexivity | constructor ].


Lemma results_handed_to_exporter_witness :
  ∃ res,
    dem_results sample_pressure sample_terrain dem_params sample_outputs
    = Some res
    ∧ times res = [1.0; 2.0]
    ∧ final_u res = [[3.0; 4.0]] ∧ final_v res = [[4.0; 3.0]]
    ∧ final_h_solid res = [[1.4; 2.1]] ∧ final_h_fluid res = [[0.6; 0.9]].
Proof.
  destruct (results_handed_to_exporter sample_pressure sample_terrain
              dem_params sample_outputs ltac:(discriminate))
    as (res & final & Hlast & _ & Hres & Ht & Hhs & Hhf & Hu & Hv & _).
  exists res. injection Hlast as <-.
  rewrite Ht, Hhs, Hhf, Hu, Hv. split; [exact Hres|]. check_sample.
Defined.


(** ** The runout metric *)

Section Runout.

Lemma argmax_scan_true besti i l : argmax_scan true besti i l = besti.
Proof. revert i. induction l as [|x l IH]; intros i; simpl; auto. Qed.

(** From a [False] best, the scan stops on the first [True] it meets. *)
Lemma argmax_scan_false besti i l :
  (∃ k, l !! k = Some true
        ∧ (∀ k', (k' < k)%nat → l !! k' = Some false)
        ∧ argmax_scan false besti i l = (i + k)%nat)
  ∨ ((∀ k b, l !! k = Some b → b = false)
     ∧ argmax_scan false besti i l = besti).
Proof.
  revert besti i. induction l as [|x l IH]; intros besti i; simpl.
  { right. split; [|done]. intros k b. by rewrite lookup_nil. }
  destruct x; simpl.
  - left. exists 0%nat. rewrite argmax_scan_true.
    split_and!; [done|lia|lia].
  - destruct (IH besti (S i)) as [(k & Hk & Hbefore & ->)|[Hnone ->]].
    + left. exists (S k). split_and!; [done| |lia].
      intros [|k'] Hlt; simpl; [done|]. apply Hbefore. lia.
    + right. split; [|done]. intros [|k] b; simpl; [by intros [= <-]|].
      apply Hnone.
Qed.

(** [np.argmax] on booleans: the index of the first [True], and [0] when
    there is none. *)
Lemma np_argmax_first_true l :
  l ≠ [] →
  ∃ r, np_argmax l = Some r
       ∧ ((l !! r = Some true ∧ ∀ k, (k < r)%nat → l !! k = Some false)
          ∨ (r = 0%nat ∧ ∀ k b, l !! k = Some b → b = false)).
Proof.
  destruct l as [|x l]; [done|]. intros _. simpl. eexists. split; [done|].
  destruct x.
  - rewrite argmax_scan_true. left. split; [done|lia].
  - destruct (argmax_scan_false 0 1 l) as [(k & Hk & Hbefore & ->)|[Hnone ->]].
    + left. split; [done|]. intros [|k'] Hlt; simpl; [done|].
      apply Hbefore. lia.
    + right. split; [done|]. intros [|k] b; simpl; [by intros [= <-]|].
      apply Hnone.
Qed.

(** C5: on a grid with at least one row, [np.argmax] of the positive
    row sums is the smallest row index whose row sum is strictly positive,
    and is [0] when no row has a positive sum; the approximate runout is
    that index times the cell size. *)
Theorem runout_is_first_positive_row terrain (max_height : Grid) :
  max_height ≠ [] →
  ∃ r,
    runout max_height = Some r
    ∧ runout_distance terrain max_height
      = Some (Float64.of_nat r * cell_size terrain)
    ∧ ((∃ row, max_height !! r = Some row ∧ (0 <? sum_row row) = true
               ∧ ∀ k row', (k < r)%nat → max_height !! k = Some row' →
                           (0 <? sum_row row') = false)
       ∨ (r = 0%nat
          ∧ ∀ k row', max_height !! k = Some row' →
                      (0 <? sum_row row') = false)).
Proof.
  intros Hne. unfold runout_distance, runout, sum_axis1.
  rewrite <- list_fmap_compose.
  set (positive := (λ x, 0 <? x) ∘ sum_row).
  destruct (np_argmax_first_true (positive <$> max_height)) as (r & -> & Hr).
  { by destruct max_height. }
  exists r. split_and!; [done|done|].
  destruct Hr as [[Hr Hbefore]|[-> Hnone]]; [left|right].
  - rewrite list_lookup_fmap in Hr.
    destruct (max_height !! r) as [row|] eqn:Hrow; [|done].
    exists row. split_and!; [done|by injection Hr|].
    intros k row' Hk Hrow'. specialize (Hbefore k Hk).
    rewrite list_lookup_fmap, Hrow' in Hbefore. by injection Hbefore.
  - split; [done|]. intros k row' Hrow'.
    apply (Hnone k). by rewrite list_lookup_fmap, Hrow'.
Qed.

End Runout.

Lemma runout_is_first_positive_row_witness :
  runout [[0; 0]; [0; 0]; [0; 1.25]; [3.0; 0]] = Some 2%nat
  ∧ runout_distance sample_terrain [[0; 0]; [0; 0]; [0; 1.25]; [3.0; 0]]
    = Some 20.0
  ∧ runout [[0; 0]; [0; 0]] = Some 0%nat.
Proof.
  destruct (runout_is_first_positive_row sample_terrain
              [[0; 0]; [0; 0]; [0; 1.25]; [3.0; 0]] ltac:(discriminate))
    as (r & Hr & Hd & _).
  split; [|split]; reflexivity.
Defined.

(** ** The initial state *)

Section InitialState.

Lemma eqb_zero_spec x : (x =? 0) = true → ∃ s, Prim2SF x = S754_zero s.
Proof.
  rewrite eqb_spec. unfold SFeqb.
  destruct (Prim2SF x) as [s|[]| |[] m e]; simpl; try discriminate. eauto.
Qed.

(** Where the release is zero the two parts add up to it. *)
Lemma zero_split_exact x : (x =? 0) = true → (x * 0.7 + x * 0.3 =? x) = true.
Proof.
  intros [s Hs]%eqb_zero_spec.
  rewrite eqb_spec, add_spec, !mul_spec, Hs. by destruct s; vm_compute.
Qed.

(** C9, as the code has it: in both drivers, for every cell, the initial
    [h_solid] is the binary64 product of the release height and 0.7 and
    [h_fluid] is its product with 0.3; the per-cell total depth is the sum
    of the two products, which is the release height where that is zero;
    and the initial volume that is reported is
    [(h_solid.sum() + h_fluid.sum()) * cell_size**2] over these products,
    whatever numpy's order of additions and the C library's [pow] are. *)
Theorem initial_split (ndarray_sum : Grid → float)
    (float_pow2 : float → option float) terrain release i j x :
  cell release i j = Some x →
  let state := initial_state terrain release in
  cell (h_solid state) i j = Some (x * 0.7)
  ∧ cell (h_fluid state) i j = Some (x * 0.3)
  ∧ cell (h_total state) i j = Some (x * 0.7 + x * 0.3)
  ∧ ((x =? 0) = true → (x * 0.7 + x * 0.3 =? x) = true)
  ∧ reported_volume ndarray_sum float_pow2 terrain state
    = (λ cell_area,
         (ndarray_sum (grid_map (λ y, y * 0.7) release)
          + ndarray_sum (grid_map (λ y, y * 0.3) release)) * cell_area)
      <$> float_pow2 (cell_size terrain).
Proof.
  intros Hx state.
  assert (cell (h_solid state) i j = Some (x * 0.7)) as Hs
    by (simpl; by rewrite cell_grid_map, Hx).
  assert (cell (h_fluid state) i j = Some (x * 0.3)) as Hf
    by (simpl; by rewrite cell_grid_map, Hx).
  split_and!; [done|done| |apply zero_split_exact|done].
  unfold h_total. by rewrite cell_elementwise, Hs, Hf.
Qed.

End InitialState.

(** The cell of height 3.0.  On this array of two elements every order of
    additions gives the same sums, and [10.0 ** 2] is exactly 100. *)
Lemma initial_split_witness :
  let state := initial_state sample_terrain sample_release in
  cell (h_solid state) 0 0 = Some 2.0999999999999996
  ∧ cell (h_fluid state) 0 0 = Some 0.8999999999999999
  ∧ cell (h_total state) 0 0 = Some 2.9999999999999996
  ∧ reported_volume np_sum (λ x, Some (x * x)) sample_terrain state
    = Some 299.99999999999994.
Proof.
  destruct (initial_split np_sum (λ x, Some (x * x)) sample_terrain
              sample_release 0 0 3.0 eq_refl)
    as (Hs & Hf & Ht & _ & Hv).
  split_and!; [exact Hs|exact Hf|exact Ht|].
  rewrite Hv. reflexivity.
Defined.

(** The split is not exact: a release height of 3.0 gives a total depth of
    2.9999999999999996, and the initial volume on 10 m cells is
    299.99999999999994 m³ where [sum(release) * cell_size²] is 300. *)
Lemma split_total_not_exact :
  let state := initial_state sample_terrain sample_release in
  cell sample_release 0 0 = Some 3.0
  ∧ cell (h_total state) 0 0 = Some 2.9999999999999996
  ∧ (2.9999999999999996 =? 3.0) = false
  ∧ reported_volume np_sum (λ x, Some (x * x)) sample_terrain state
    = Some 299.99999999999994
  ∧ np_sum sample_release * 100 = 300
  ∧ (299.99999999999994 =? 300) = false.
Proof. cbv zeta. split_and!; reflexivity. Qed.

(** ** The solver's time loop *)

Section SolverRun.

Import Solver.

Variable terrain : Terrain.
Variable config : SolverConfig.
Variable advance : float → FlowState → FlowState.
Variable max_wave_speed : FlowState → float.
Variable stall_limit : nat.
Variable t_end : float.
Variable output_interval : float.

Local Abbreviation dt_of s := (compute_dt terrain config max_wave_speed s).
Local Abbreviation step_of r :=
  (step terrain config advance max_wave_speed stall_limit output_interval r).
Local Abbreviation iterate_of fuel r :=
  (iterate terrain config advance max_wave_speed stall_limit t_end
     output_interval fuel r).
Local Abbreviation run_of fuel state0 :=
  (Solver.run_simulation terrain config advance max_wave_speed stall_limit
     t_end output_interval fuel state0).

Lemma clamp_depth_nonneg x :
  is_finite (clamp_depth x) = true → (0 <=? clamp_depth x) = true.
Proof.
  unfold clamp_depth. destruct (x <? 0) eqn:E; [done|].
  intros Hx%is_finite_not_nan. by apply not_ltb_leb.
Qed.

Lemma grid_all_map (P : float → Prop) f a :
  grid_all P (grid_map f a) ↔ grid_all (P ∘ f) a.
Proof.
  unfold grid_all, grid_map. rewrite Forall_fmap.
  apply Forall_proper; [|done]. intros row. simpl. apply Forall_fmap.
Qed.

Lemma grid_finite_all a :
  grid_finite a = true → grid_all (λ x, is_finite x = true) a.
Proof.
  unfold grid_finite, grid_all. rewrite forallb_forall, Forall_forall.
  intros H row Hrow%list_elem_of_In. specialize (H row Hrow).
  rewrite forallb_forall in H. apply Forall_forall.
  intros x Hx%list_elem_of_In. by apply H.
Qed.

Lemma clamped_depths_nonneg a :
  grid_finite (grid_map clamp_depth a) = true →
  grid_all (λ h, (0 <=? h) = true) (grid_map clamp_depth a).
Proof.
  intros H%grid_finite_all. apply grid_all_map. apply grid_all_map in H.
  eapply Forall_impl; [done|]. intros row Hrow.
  eapply Forall_impl; [done|]. intros x. apply clamp_depth_nonneg.
Qed.

Lemma clamp_zeroes_phase h u v :
  clamped_phase_zeroed h u v (grid_map clamp_depth h)
    (elementwise clamp_velocity h u) (elementwise clamp_velocity h v).
Proof.
  intros i j x Hx Hneg.
  rewrite cell_grid_map, !cell_elementwise, Hx. simpl.
  unfold clamp_depth, clamp_velocity. rewrite Hneg.
  split_and!; [done|by intros [y ->]|by intros [y ->]].
Qed.

(** What a successful step leaves behind. *)
Lemma step_inr r r' :
  step_of r = inr r' →
  state r' = clamp_negative_depths (advance (dt_of (state r)) (state r))
  ∧ state_finite (state r') = true
  ∧ (recorded r' = recorded r
     ∨ recorded r' = recorded r ++ [(time r', state r')]).
Proof.
  unfold step. case_bool_decide; [done|].
  destruct (state_finite _) eqn:Hfin; simpl; [|done].
  intros [= <-]. simpl. split_and!; [done|done|].
  destruct (_ <=? _); auto.
Qed.

Lemma step_depths_nonneg r r' :
  step_of r = inr r' → depths_nonneg (state r').
Proof.
  intros (Hs & Hfin & _)%step_inr. rewrite Hs in *.
  unfold state_finite in Hfin. simpl in Hfin.
  repeat (apply andb_true_iff in Hfin as [Hfin ?]).
  split; simpl; by apply clamped_depths_nonneg.
Qed.

Lemma step_run_ok r r' : run_ok r → step_of r = inr r' → run_ok r'.
Proof.
  intros [_ Hrec] Hstep. pose proof (step_depths_nonneg _ _ Hstep) as Hnn.
  split; [done|].
  destruct (step_inr _ _ Hstep) as (_ & _ & [-> | ->]); [done|].
  apply Forall_app. split; [done|]. by constructor.
Qed.

Lemma iterate_run_ok fuel r outputs :
  run_ok r → iterate_of fuel r = Some (inr outputs) →
  Forall (λ o, depths_nonneg o.2) outputs.
Proof.
  revert r. induction fuel as [|fuel IH]; intros r Hok; simpl.
  - destruct (t_end <=? time r); [|done]. intros [= <-].
    destruct Hok as [Hs Hrec]. unfold finish.
    destruct (pending r); [|done]. apply Forall_app. split; [done|].
    by constructor.
  - destruct (t_end <=? time r).
    + intros [= <-]. destruct Hok as [Hs Hrec]. unfold finish.
      destruct (pending r); [|done]. apply Forall_app. split; [done|].
      by constructor.
    + destruct (step_of r) as [e|r'] eqn:Hstep; [done|].
      apply IH. by eapply step_run_ok.
Qed.

(** C2: after every step of the solver both depths of every cell are at
    least zero, and a phase whose depth was negative before the clamp has
    zero depth and zero velocity in that cell; no snapshot recorded by a run
    that starts from non-negative depths has a negative depth. *)
Theorem depths_never_negative :
  (∀ r r', step_of r = inr r' →
     let before := advance (dt_of (state r)) (state r) in
     depths_nonneg (state r')
     ∧ clamped_phase_zeroed
         (h_solid before) (u_solid before) (v_solid before)
         (h_solid (state r')) (u_solid (state r')) (v_solid (state r'))
     ∧ clamped_phase_zeroed
         (h_fluid before) (u_fluid before) (v_fluid before)
         (h_fluid (state r')) (u_fluid (state r')) (v_fluid (state r')))
  ∧ (∀ fuel state0 outputs,
       depths_nonneg state0 → run_of fuel state0 = Some (inr outputs) →
       Forall (λ o, depths_nonneg o.2) outputs).
Proof.
  split.
  - intros r r' Hstep before. split; [by eapply step_depths_nonneg|].
    destruct (step_inr _ _ Hstep) as (-> & _ & _). simpl.
    split; apply clamp_zeroes_phase.
  - intros fuel state0 outputs H0. apply iterate_run_ok. by split.
Qed.

End SolverRun.

Lemma depths_never_negative_witness :
  (∃ r', Solver.step sample_terrain synthetic_config sample_advance
           sample_wave_speed 3 0.5 (Solver.start sample_first) = inr r'
         ∧ depths_nonneg (Solver.state r')
         ∧ cell (h_solid (Solver.state r')) 0 1 = Some 0
         ∧ cell (u_solid (Solver.state r')) 0 1 = Some 0)
  ∧ ∃ outputs,
      Solver.run_simulation sample_terrain synthetic_config sample_advance
        sample_wave_speed 3 1.0 0.5 50 sample_second = Some (inr outputs)
      ∧ length outputs = 2%nat
      ∧ Forall (λ o, depths_nonneg o.2) outputs.
Proof.
  pose proof (depths_never_negative sample_terrain synthetic_config
                sample_advance sample_wave_speed 3 1.0 0.5) as [Hstep Hrun].
  split.
  - eexists. split; [reflexivity|].
    destruct (Hstep (Solver.start sample_first) _ eq_refl) as (Hnn & Hs & _).
    destruct (Hs 0%nat 1%nat _ eq_refl eq_refl) as (Hh & Hu & _).
    split; [exact Hnn|]. split; [exact Hh|]. apply Hu. by eexists.
  - eexists. split; [vm_compute; reflexivity|]. split; [reflexivity|].
    apply (Hrun 50%nat sample_second); [check_sample|vm_compute; reflexivity].
Defined.

(** ** The drivers as a whole *)

Section WholeDrivers.

Variable ndarray_sum : Grid → float.
Variable float_pow2 : float → option float.
Variable compute_impact_pressure : FlowParameters → FlowState → Grid.
Variable create_release_zone : Terrain → Z → Z → Z → float → Grid.
Variable create_synthetic_slope : nat → nat → float → float → bool → Terrain.
Variable Terrain_load : string → option Terrain.
Variable run_simulation :
  Terrain → FlowParameters → SolverConfig → FlowState → float → float →
  option Outputs.

(** What [run_synthetic_test] reports, when it reports, is built from the
    pieces above: the 70/30 initial state on the 80 x 60 synthetic slope,
    the solver run with the synthetic constants and a one-second output
    interval, and the post-processing of its output sequence; the terrain
    and the release then have at least one cell. *)
Lemma run_synthetic_test_report t_end rep :
  run_synthetic_test ndarray_sum float_pow2 compute_impact_pressure
    create_release_zone create_synthetic_slope run_simulation t_end
  = Some rep →
  let terrain := create_synthetic_slope 80 60 10.0 25.0 true in
  let release := create_release_zone terrain 15 30 8 5.0 in
  let state := initial_state terrain release in
  ∃ outputs final,
    run_simulation terrain synthetic_params synthetic_config state t_end 1.0
    = Some outputs
    ∧ last outputs = Some final
    ∧ synthetic_results compute_impact_pressure terrain synthetic_params
        outputs = Some (results rep)
    ∧ metadata rep = make_metadata terrain
    ∧ reported_volume ndarray_sum float_pow2 terrain state
      = Some (initial_volume rep)
    ∧ final_volume rep = reported_volume ndarray_sum float_pow2 terrain final.2
    ∧ affected_area rep
      = reported_affected_area float_pow2 terrain
          (max_flow_height (results rep))
    ∧ approximate_runout rep
      = runout_distance terrain (max_flow_height (results rep))
    ∧ is_Some (elevation_range terrain)
    ∧ is_Some (np_max release)
    ∧ is_Some (printed_maxima
                 (accumulate compute_impact_pressure terrain synthetic_params
                    outputs)).
Proof.
  unfold run_synthetic_test. cbv zeta. intros H.
  destruct (elevation_range _) as [range|]; simpl in H; [|done].
  destruct (reported_volume _ _ _ (initial_state _ _)) as [v0|] eqn:Hv0;
    simpl in H; [|done].
  destruct (np_max _) as [top|]; simpl in H; [|done].
  destruct (run_simulation _ _ _ _ _ _) as [outputs|]; simpl in H; [|done].
  destruct (synthetic_results _ _ _ _) as [res|] eqn:Hres; simpl in H; [|done].
  destruct (last outputs) as [final|] eqn:Hlast; simpl in H; [|done].
  destruct (reported_volume _ _ _ final.2) as [v1|] eqn:Hv1;
    simpl in H; [|done].
  destruct (reported_affected_area _ _ _) as [area|] eqn:Harea;
    simpl in H; [|done].
  destruct (runout_distance _ _) as [d|] eqn:Hd; simpl in H; [|done].
  destruct (printed_maxima _) as [maxima|] eqn:Hmax; simpl in H; [|done].
  injection H as <-. simpl. exists outputs, final.
  rewrite Hv1, Harea, Hd, Hmax. split_and!; try done; by eexists.
Qed.

(** The same for [run_dem_simulation], on the loaded terrain, with the
    release centre of [release_center] and the DEM constants. *)
Lemma run_dem_simulation_report dem_file t_end release_i release_j
    release_radius release_height rep :
  run_dem_simulation ndarray_sum float_pow2 compute_impact_pressure
    create_release_zone Terrain_load run_simulation dem_file t_end release_i
    release_j release_radius release_height = Some rep →
  ∃ terrain outputs,
    let center := release_center terrain release_i release_j in
    let state :=
      initial_state terrain
        (create_release_zone terrain center.1 center.2 release_radius
           release_height) in
    Terrain_load dem_file = Some terrain
    ∧ run_simulation terrain dem_params dem_config state t_end
        (dem_output_interval t_end) = Some outputs
    ∧ dem_results compute_impact_pressure terrain dem_params outputs
      = Some (results rep)
    ∧ metadata rep = make_metadata terrain
    ∧ reported_volume ndarray_sum float_pow2 terrain state
      = Some (initial_volume rep)
    ∧ is_Some (elevation_range terrain).
Proof.
  unfold run_dem_simulation. intros H.
  destruct (Terrain_load dem_file) as [terrain|]; simpl in H; [|done].
  destruct (elevation_range _) as [range|] eqn:Hrange; simpl in H; [|done].
  unfold release_center in *. simpl in H.
  destruct (reported_volume _ _ _ _) as [v0|] eqn:Hv0; simpl in H; [|done].
  destruct (run_simulation _ _ _ _ _ _) as [outputs|] eqn:Hrun;
    simpl in H; [|done].
  destruct (dem_results _ _ _ _) as [res|] eqn:Hres; simpl in H; [|done].
  injection H as <-. exists terrain, outputs. simpl.
  rewrite Hrange. split_and!; try done; by eexists.
Qed.

End WholeDrivers.

(** * More properties of the drivers *)

(** ** Binary64: values that are at least zero *)

Section Binary64NonNegative.

Import Float64.

Lemma shr_1_nonneg mrs : (0 ≤ shr_m mrs)%Z → (0 ≤ shr_m (shr_1 mrs))%Z.
Proof. destruct mrs as [[|[p|p|]|p] r s]; simpl; lia. Qed.

Lemma iter_shr_1_nonneg p mrs :
  (0 ≤ shr_m mrs)%Z → (0 ≤ shr_m (iter_pos shr_1 p mrs))%Z.
Proof.
  revert mrs. induction p as [p IH|p IH|]; intros mrs H; simpl.
  - apply IH, IH. by apply shr_1_nonneg.
  - by apply IH, IH.
  - by apply shr_1_nonneg.
Qed.

Lemma shr_fexp_nonneg m e l :
  (0 ≤ m)%Z → (0 ≤ shr_m (shr_fexp prec emax m e l).1)%Z.
Proof.
  intros Hm. unfold shr_fexp, shr.
  assert (0 ≤ shr_m (shr_record_of_loc m l))%Z as H0
    by (by destruct l as [|[]]).
  destruct (_ - e)%Z; simpl; try done. by apply iter_shr_1_nonneg.
Qed.

Lemma round_nearest_even_nonneg m l :
  (0 ≤ m)%Z → (0 ≤ round_nearest_even m l)%Z.
Proof. destruct l as [|[]]; simpl; try lia. destruct (Z.even m); lia. Qed.

(** Rounding a non-negative integer mantissa with a clear sign bit never
    gives a NaN. *)
Lemma binary_round_aux_ge0 m e l :
  (0 ≤ m)%Z → SFge0 (binary_round_aux prec emax false m e l).
Proof.
  intros Hm. unfold binary_round_aux.
  pose proof (shr_fexp_nonneg m e l Hm) as H1.
  destruct (shr_fexp prec emax m e l) as [mrs' e']. simpl in H1.
  pose proof (shr_fexp_nonneg _ e' loc_Exact
                (round_nearest_even_nonneg _ (loc_of_shr_record mrs') H1))
    as H2.
  destruct (shr_fexp prec emax _ e' loc_Exact) as [mrs'' e'']. simpl in H2.
  destruct (shr_m mrs''); simpl; [done| |lia].
  by destruct (Z.leb _ _).
Qed.

Lemma SFadd_ge0 f g : SFge0 f → SFge0 g → SFge0 (SF64add f g).
Proof.
  sf_cases f; sf_cases g; simpl; auto; try discriminate.
  intros _ _. unfold binary_round.
  destruct (shl_align _ _ _) as [mz ez]. by apply binary_round_aux_ge0.
Qed.

Lemma SFmul_ge0_finite f m e :
  SFge0 f → SFge0 (SF64mul f (S754_finite false m e)).
Proof.
  sf_cases f; simpl; auto; try discriminate.
  intros _. by apply binary_round_aux_ge0.
Qed.

Lemma SFmul_nn f g : SFnn f → SFnn g → SFnn (SF64mul f g).
Proof.
  sf_cases f; sf_cases g; simpl; auto; try discriminate;
    intros _ _; apply binary_round_aux_nn.
Qed.

Lemma leb_zero_spec x : (0 <=? x) = true ↔ SFge0 (Prim2SF x).
Proof.
  rewrite leb_spec. unfold SFleb.
  change (Prim2SF 0) with (S754_zero false).
  destruct (Prim2SF x) as [[]|[]| |[] m e]; simpl; split; done.
Qed.

Lemma add_ge0 x y :
  (0 <=? x) = true → (0 <=? y) = true → (0 <=? x + y) = true.
Proof. rewrite !leb_zero_spec, add_spec. apply SFadd_ge0. Qed.

Lemma mul_07_ge0 x : (0 <=? x) = true → (0 <=? x * 0.7) = true.
Proof.
  rewrite !leb_zero_spec, mul_spec.
  change (Prim2SF 0.7) with (S754_finite false 6305039478318694 (-53)).
  apply SFmul_ge0_finite.
Qed.

Lemma mul_03_ge0 x : (0 <=? x) = true → (0 <=? x * 0.3) = true.
Proof.
  rewrite !leb_zero_spec, mul_spec.
  change (Prim2SF 0.3) with (S754_finite false 5404319552844595 (-54)).
  apply SFmul_ge0_finite.
Qed.

Lemma mul_nonneg x y :
  nonneg_or_nan x → nonneg_or_nan y → nonneg_or_nan (x * y).
Proof. rewrite !nonneg_or_nan_spec, mul_spec. apply SFmul_nn. Qed.

Lemma ltb_leb x y : (x <? y) = true → (x <=? y) = true.
Proof.
  rewrite ltb_spec, leb_spec. unfold SFltb, SFleb.
  by destruct (SFcompare _ _) as [[]|].
Qed.

(** [np.maximum] with a first argument that is not negative is not
    negative, whatever the second. *)
Lemma np_maximum_nonneg a b : nonneg_or_nan a → nonneg_or_nan (np_maximum a b).
Proof.
  intros Ha. destruct (is_nan a) eqn:Na.
  { by rewrite np_maximum_nan_l. }
  destruct (is_nan b) eqn:Nb.
  { rewrite np_maximum_nan_r by done. by left. }
  destruct Ha as [Ha|Ha]; [congruence|].
  destruct (np_maximum_cases a b Na Nb) as [[-> _]|[-> Hab]]; right; [done|].
  by eapply leb_trans.
Qed.

End Binary64NonNegative.

(** ** Shapes and signs of the arrays the drivers build *)

Section Shapes.

Import Float64.

Lemma has_shape_np_zeros rows cols : has_shape rows cols (np_zeros rows cols).
Proof.
  split; [apply length_replicate|].
  apply Forall_replicate, length_replicate.
Qed.

Lemma has_shape_grid_map f rows cols a :
  has_shape rows cols a → has_shape rows cols (grid_map f a).
Proof.
  intros [Hr Hc]. split; unfold grid_map; [by rewrite length_fmap|].
  apply Forall_fmap. eapply Forall_impl; [done|].
  intros row Hrow. simpl. by rewrite length_fmap.
Qed.

Lemma has_shape_elementwise f rows cols a b :
  has_shape rows cols a → has_shape rows cols b →
  has_shape rows cols (elementwise f a b).
Proof.
  intros [Ha Hca] [Hb Hcb]. unfold elementwise. split.
  - rewrite length_zip_with. lia.
  - apply Forall_lookup. intros i row Hrow.
    apply lookup_zip_with_Some in Hrow as (ra & rb & -> & Hra & Hrb).
    rewrite Forall_lookup in Hca. rewrite Forall_lookup in Hcb.
    rewrite length_zip_with, (Hca _ _ Hra), (Hcb _ _ Hrb). lia.
Qed.

Lemma grid_all_np_zeros (P : float → Prop) rows cols :
  P 0 → grid_all P (np_zeros rows cols).
Proof. intros H0. by apply Forall_replicate, Forall_replicate. Qed.

(** An element-wise [np.maximum] keeps its first argument free of negative
    elements. *)
Lemma grid_all_maximum_nonneg a b :
  grid_all nonneg_or_nan a →
  grid_all nonneg_or_nan (elementwise np_maximum a b).
Proof.
  intros Ha. apply Forall_lookup. intros i row Hrow.
  apply lookup_zip_with_Some in Hrow as (ra & rb & -> & Hra & Hrb).
  unfold grid_all in Ha. rewrite Forall_lookup in Ha.
  specialize (Ha _ _ Hra). apply Forall_lookup. intros j z Hz.
  apply lookup_zip_with_Some in Hz as (x & y & -> & Hx & Hy).
  rewrite Forall_lookup in Ha. apply np_maximum_nonneg. eauto.
Qed.

Lemma foldl_maximum_shape_sign {X} (g : X → Grid) rows cols
    (xs : list X) init :
  has_shape rows cols init → grid_all nonneg_or_nan init →
  Forall (λ x, has_shape rows cols (g x)) xs →
  let m := foldl (λ acc x, elementwise np_maximum acc (g x)) init xs in
  has_shape rows cols m ∧ grid_all nonneg_or_nan m.
Proof.
  revert init. induction xs as [|x xs IH]; intros init Hs Hn Hxs; simpl.
  { done. }
  apply Forall_cons in Hxs as [Hx Hxs]. apply IH; [|by apply grid_all_maximum_nonneg|done].
  by apply has_shape_elementwise.
Qed.

End Shapes.

(** ** What the post-processing exports, whatever the snapshots hold *)

Section Exports.

Import Float64.

Variable compute_impact_pressure : FlowParameters → FlowState → Grid.

(** The arrays handed to the exporter have the terrain's shape, and the
    three maxima hold no negative element, whatever the snapshots contain
    (negative depths included): the accumulators start at zero and
    [np.maximum] never goes below its first argument. *)
Theorem exported_arrays_shape_and_sign terrain params outputs res :
  Forall (λ o, snapshot_shape terrain o.2
               ∧ has_shape (rows terrain) (cols terrain)
                   (compute_impact_pressure params o.2))
         outputs →
  synthetic_results compute_impact_pressure terrain params outputs = Some res
  ∨ dem_results compute_impact_pressure terrain params outputs = Some res →
  Forall (λ a, has_shape (rows terrain) (cols terrain) a
               ∧ grid_all nonneg_or_nan a)
         [max_flow_height res; max_velocity res; max_pressure res]
  ∧ Forall (has_shape (rows terrain) (cols terrain))
           [final_h_solid res; final_h_fluid res; final_u res; final_v res].
Proof.
  intros Hok Hres. rewrite dem_results_synthetic in Hres.
  assert (synthetic_results compute_impact_pressure terrain params outputs
          = Some res) as Hr by (by destruct Hres).
  clear Hres. unfold synthetic_results in Hr.
  destruct (last outputs) as [final|] eqn:Hlast; [|done].
  simpl in Hr. injection Hr as <-. simpl.
  unfold accumulate, loop_init. rewrite foldl_loop_body. simpl.
  assert (grid_all nonneg_or_nan (np_zeros (rows terrain) (cols terrain)))
    as Hz by (apply grid_all_np_zeros; by right).
  split.
  - repeat constructor.
    all: try (apply (foldl_maximum_shape_sign _ (rows terrain) (cols terrain));
              [apply has_shape_np_zeros|done|]).
    all: eapply Forall_impl; [exact Hok|];
      intros o ((Hs & Hf & Hu & Hv) & Hp); simpl; try done.
    all: try (by apply has_shape_elementwise).
    all: apply has_shape_grid_map, has_shape_elementwise;
      by apply has_shape_grid_map.
  - apply last_Some_elem_of in Hlast.
    rewrite Forall_forall in Hok.
    destruct (Hok _ Hlast) as ((Hs & Hf & Hu & Hv) & _).
    repeat (constructor; [done|]). constructor.
Qed.

Lemma depth_at_ge0 s i j rows cols :
  has_shape rows cols (h_solid s) → has_shape rows cols (h_fluid s) →
  depths_nonneg s → (i < rows)%nat → (j < cols)%nat →
  (0 <=? depth_at i j s) = true.
Proof.
  intros Hs Hf [Ns Nf] Hi Hj.
  destruct (has_shape_cell _ _ _ i j Hs Hi Hj) as [x Hx].
  destruct (has_shape_cell _ _ _ i j Hf Hi Hj) as [y Hy].
  unfold depth_at.
  rewrite (value_at_Some _ _ _ _ Hx), (value_at_Some _ _ _ _ Hy).
  apply add_ge0.
  - by apply (grid_all_cell _ _ _ _ _ Ns Hx).
  - by apply (grid_all_cell _ _ _ _ _ Nf Hy).
Qed.

(** With snapshots of the terrain's shape whose depths are not negative,
    the exported [max_flow_height] is never a NaN: at every cell it is at
    least zero, it is the total depth [h_solid + h_fluid] of one of the
    snapshots, and no snapshot has a larger total depth there.  Nothing is
    asked of the velocities or of the impact pressure. *)
Theorem max_flow_height_is_attained terrain params outputs res :
  Forall (λ o, snapshot_shape terrain o.2 ∧ depths_nonneg o.2) outputs →
  synthetic_results compute_impact_pressure terrain params outputs = Some res
  ∨ dem_results compute_impact_pressure terrain params outputs = Some res →
  ∀ i j, (i < rows terrain)%nat → (j < cols terrain)%nat →
    ∃ m, cell (max_flow_height res) i j = Some m
         ∧ (0 <=? m) = true
         ∧ (∃ o, o ∈ outputs ∧ (m =? depth_at i j o.2) = true)
         ∧ (∀ o, o ∈ outputs → (depth_at i j o.2 <=? m) = true).
Proof.
  intros Hok Hres i j Hi Hj. rewrite dem_results_synthetic in Hres.
  assert (synthetic_results compute_impact_pressure terrain params outputs
          = Some res) as Hr by (by destruct Hres).
  clear Hres. unfold synthetic_results in Hr.
  destruct (last outputs) as [final|] eqn:Hlast; [|done].
  simpl in Hr. injection Hr as <-. simpl.
  assert (outputs ≠ []) as Hne by (by intros ->).
  unfold accumulate, loop_init. rewrite foldl_loop_body. simpl.
  assert (Forall (λ o, (0 <=? depth_at i j o.2) = true) outputs) as Hge.
  { eapply Forall_impl; [done|]. intros o ((Hs & Hf & _) & Hn).
    by eapply depth_at_ge0. }
  destruct (cell_running_maximum (λ o, h_total o.2) (λ o, depth_at i j o.2)
              (rows terrain) (cols terrain) outputs i j Hi Hj Hne)
    as (m & Hm & Hmax).
  { rewrite Forall_forall in Hok. rewrite Forall_forall in Hge.
    apply Forall_forall. intros o Ho.
    destruct (Hok o Ho) as ((Hs & Hf & _) & _). split.
    - apply cell_h_total; by eapply has_shape_cell.
    - right. by apply Hge. }
  exists m. split; [done|]. unfold is_maximum_of in Hmax.
  assert (existsb is_nan ((λ o, depth_at i j o.2) <$> outputs) = false)
    as Hnan.
  { apply not_true_is_false. intros (v & Hv & Nv)%existsb_exists.
    apply list_elem_of_In, list_elem_of_fmap in Hv as (o & -> & Ho).
    rewrite Forall_forall in Hge.
    destruct (leb_not_nan _ _ (Hge o Ho)) as [_ ?]. congruence. }
  rewrite Hnan in Hmax. destruct Hmax as [(v & Hv & Hmv) Hall].
  apply list_elem_of_fmap in Hv as (o & -> & Ho).
  rewrite Forall_fmap, Forall_forall in Hall.
  split_and!; [|by exists o|done].
  rewrite Forall_forall in Hge.
  eapply leb_trans; [by apply Hge|by apply Hall].
Qed.

End Exports.

Lemma exported_arrays_shape_and_sign_witness :
  ∃ res,
    dem_results sample_pressure sample_terrain dem_params sample_outputs
    = Some res
    ∧ has_shape 1 2 (max_velocity res)
    ∧ grid_all Float64.nonneg_or_nan (max_pressure res)
    ∧ has_shape 1 2 (final_v res).
Proof.
  eexists. split; [reflexivity|].
  destruct (exported_arrays_shape_and_sign sample_pressure sample_terrain
              dem_params sample_outputs _ ltac:(check_sample)
              (or_intror eq_refl)) as [Hmax Hfinal].
  apply Forall_cons in Hmax as [_ Hmax].
  apply Forall_cons in Hmax as [[Hv _] Hmax].
  apply Forall_cons in Hmax as [[_ Hp] _].
  split; [exact Hv|]. split; [exact Hp|].
  do 3 (apply Forall_cons in Hfinal as [_ Hfinal]).
  by apply Forall_cons in Hfinal as [Hfv _].
Defined.

Lemma max_flow_height_is_attained_witness :
  ∃ res m,
    synthetic_results sample_pressure sample_terrain synthetic_params
      sample_outputs = Some res
    ∧ cell (max_flow_height res) 0 0 = Some m
    ∧ (0 <=? m) = true
    ∧ ∀ o, o ∈ sample_outputs → (depth_at 0 0 o.2 <=? m) = true.
Proof.
  eexists.
  destruct (max_flow_height_is_attained sample_pressure sample_terrain
              synthetic_params sample_outputs _ ltac:(check_sample)
              (or_introl eq_refl) 0%nat 0%nat ltac:(check_sample)
              ltac:(check_sample)) as (m & Hm & H0 & _ & Hall).
  exists m. split; [reflexivity|]. split; [exact Hm|]. split; [exact H0|].
  exact Hall.
Defined.

(** ** The initial state and the volumes *)

Section InitialVolume.

Import Float64.

(** The state both drivers hand to the solver, for a release field of the
    terrain's shape without negative heights: every array has the terrain's
    shape, no depth is negative (or a NaN), and the flow is at rest. *)
Theorem initial_state_invariant terrain release :
  has_shape (rows terrain) (cols terrain) release →
  grid_all (λ x, (0 <=? x) = true) release →
  let state := initial_state terrain release in
  snapshot_shape terrain state
  ∧ has_shape (rows terrain) (cols terrain) (u_fluid state)
  ∧ has_shape (rows terrain) (cols terrain) (v_fluid state)
  ∧ depths_nonneg state
  ∧ ∀ i j, (i < rows terrain)%nat → (j < cols terrain)%nat →
      Forall (λ a, cell a i j = Some 0)
             [u_solid state; v_solid state; u_fluid state; v_fluid state].
Proof.
  intros Hs Hn state. unfold snapshot_shape. simpl.
  split_and!; try apply has_shape_np_zeros; try by apply has_shape_grid_map.
  - split; simpl; apply grid_all_map.
    + eapply Forall_impl; [exact Hn|]. intros row Hrow.
      eapply Forall_impl; [exact Hrow|]. intros x. apply mul_07_ge0.
    + eapply Forall_impl; [exact Hn|]. intros row Hrow.
      eapply Forall_impl; [exact Hrow|]. intros x. apply mul_03_ge0.
  - intros i j Hi Hj. repeat (constructor; [by apply cell_np_zeros|]).
    constructor.
Qed.

Lemma foldl_add_ge0 row a :
  (0 <=? a) = true → Forall (λ x, (0 <=? x) = true) row →
  (0 <=? foldl PrimFloat.add a row) = true.
Proof.
  revert a. induction row as [|x row IH]; intros a Ha Hrow; simpl; [done|].
  apply Forall_cons in Hrow as [Hx Hrow]. apply IH; [|done].
  by apply add_ge0.
Qed.

Lemma np_sum_ge0 a :
  grid_all (λ x, (0 <=? x) = true) a → (0 <=? np_sum a) = true.
Proof.
  intros Ha. unfold np_sum, sum_row. apply foldl_add_ge0; [done|].
  induction Ha as [|row a Hrow _ IH]; simpl; [constructor|].
  by apply Forall_app.
Qed.

(** The volume formula of the drivers, [(sum(h_solid) + sum(h_fluid)) *
    cell_size²], never gives a negative volume for a state whose depths are
    not negative, whatever the cell size: the result is at least zero, or a
    NaN. *)
Theorem volume_never_negative terrain state :
  depths_nonneg state → nonneg_or_nan (volume terrain state).
Proof.
  intros [Hs Hf]. unfold volume. apply mul_nonneg; [|apply square_nonneg].
  right. apply add_ge0; by apply np_sum_ge0.
Qed.

End InitialVolume.

Lemma initial_state_invariant_witness :
  depths_nonneg (initial_state sample_terrain sample_release)
  ∧ snapshot_shape sample_terrain (initial_state sample_terrain sample_release).
Proof.
  destruct (initial_state_invariant sample_terrain sample_release
              ltac:(check_sample) ltac:(check_sample))
    as (Hshape & _ & _ & Hnn & _).
  split; [exact Hnn|exact Hshape].
Defined.

Lemma volume_never_negative_witness :
  Float64.nonneg_or_nan (volume sample_terrain sample_second)
  ∧ volume sample_terrain sample_second = 500.
Proof.
  split; [|reflexivity].
  apply (volume_never_negative sample_terrain sample_second).
  check_sample.
Defined.

(** ** The runout index, the output interval and the release centre *)

Section Summary.

Lemma runout_None_iff (max_height : Grid) :
  runout max_height = None ↔ max_height = [].
Proof.
  unfold runout, sum_axis1. rewrite <- list_fmap_compose.
  destruct max_height; simpl; split; done.
Qed.

(** [np.argmax] in the runout metric raises exactly on a grid without rows;
    otherwise the index it gives is the index of a row of the grid. *)
Theorem runout_index_in_range (max_height : Grid) :
  (runout max_height = None ↔ max_height = [])
  ∧ ∀ r, runout max_height = Some r → (r < length max_height)%nat.
Proof.
  split; [apply runout_None_iff|].
  unfold runout, sum_axis1. rewrite <- list_fmap_compose.
  set (positive := (λ x, 0 <? x) ∘ sum_row).
  - intros r Hr. destruct max_height as [|row rest]; [done|].
    destruct (np_argmax_first_true (positive <$> row :: rest))
      as (r' & Hr' & Hspec); [done|].
    rewrite Hr in Hr'. injection Hr' as <-.
    destruct Hspec as [[Hlook _]|[-> _]]; [|simpl; lia].
    apply lookup_lt_Some in Hlook. by rewrite length_fmap in Hlook.
Qed.

(** The output interval that [run_dem_simulation] passes to the solver is
    at least one second for every end time, a NaN or a negative one
    included: it is [t_end / 60] when that exceeds 1.0 and 1.0 otherwise. *)
Theorem dem_output_interval_at_least_one t_end :
  (1.0 <=? dem_output_interval t_end) = true
  ∧ ((dem_output_interval t_end = t_end / 60 ∧ (1.0 <? t_end / 60) = true)
     ∨ (dem_output_interval t_end = 1.0 ∧ (1.0 <? t_end / 60) = false)).
Proof.
  unfold dem_output_interval. destruct (1.0 <? t_end / 60) eqn:E.
  - split; [by apply ltb_leb|by left].
  - split; [reflexivity|by right].
Qed.

(** On a terrain with at least one row and one column, a release-zone
    coordinate that [run_dem_simulation] computes itself is the index of a
    row (of a column) of the grid. *)
Theorem default_release_center_inside terrain release_i release_j :
  (0 < rows terrain)%nat → (0 < cols terrain)%nat →
  let center := release_center terrain release_i release_j in
  (release_i = None → (0 ≤ center.1 < Z.of_nat (rows terrain))%Z)
  ∧ (release_j = None → (0 ≤ center.2 < Z.of_nat (cols terrain))%Z).
Proof.
  intros Hr Hc. simpl. split; intros ->; simpl.
  - split; [apply Z.div_pos; lia|apply Z.div_lt; lia].
  - split; [apply Z.div_pos; lia|apply Z.div_lt; lia].
Qed.

End Summary.

Lemma default_release_center_inside_witness :
  release_center sample_terrain None None = (0%Z, 1%Z)
  ∧ (0 ≤ 1 < Z.of_nat (cols sample_terrain))%Z.
Proof.
  split; [reflexivity|].
  exact (proj2 (default_release_center_inside sample_terrain None None
                  ltac:(simpl; lia) ltac:(simpl; lia)) eq_refl).
Defined.

(** ** The snapshots for the 3D viewer *)

Section EndToEnd.

Import Float64.

Variable compute_impact_pressure : FlowParameters → FlowState → Grid.

(** The two lists that [run_dem_simulation] hands to the 3D viewer are
    aligned with the solver's output sequence: as many snapshots and times
    as there are samples, the [k]-th snapshot being the total depth
    [h_solid + h_fluid] of the [k]-th sample and the [k]-th time its
    time. *)
Theorem dem_snapshots_aligned terrain params outputs :
  let snapshots :=
    (dem_accumulate compute_impact_pressure terrain params outputs).1.2 in
  let times :=
    (dem_accumulate compute_impact_pressure terrain params outputs).2 in
  length snapshots = length outputs
  ∧ length times = length outputs
  ∧ ∀ k o, outputs !! k = Some o →
      snapshots !! k = Some (h_total o.2) ∧ times !! k = Some o.1.
Proof.
  unfold dem_accumulate. rewrite foldl_dem_loop_body. simpl.
  rewrite !length_fmap. split_and!; [done|done|].
  intros k o Ho. by rewrite !list_lookup_fmap, Ho.
Qed.

End EndToEnd.

(** ** [test_all] *)

Section TestAll.

Import Tests.

Lemma foldl_run_one_None tests : foldl run_one None tests = None.
Proof. induction tests as [|t tests IH]; simpl; done. Qed.

Lemma foldl_run_one_Some tests results :
  Forall (λ t, t.2 ≠ RaisedOther) tests →
  foldl run_one (Some results) tests
  = Some (results ++ ((λ t, (t.1, recorded_result t.2)) <$> tests)).
Proof.
  revert results. induction tests as [|[name o] tests IH]; intros results H.
  { simpl. by rewrite app_nil_r. }
  apply Forall_cons in H as [Ho H]. simpl in *.
  destruct o; simpl; [| |done]; rewrite IH by done;
    by rewrite <- app_assoc.
Qed.

Lemma foldl_run_one_abort tests results :
  Exists (λ t, t.2 = RaisedOther) tests →
  foldl run_one (Some results) tests = None.
Proof.
  revert results. induction tests as [|[name o] tests IH]; intros results H.
  { by apply Exists_nil in H. }
  apply Exists_cons in H as [Ho|H]; simpl in *.
  - rewrite Ho. simpl. apply foldl_run_one_None.
  - destruct o; simpl; auto using foldl_run_one_None.
Qed.

Lemma foldl_count_passed results n :
  foldl (λ passed r, if r.2 : bool then S passed else passed) n results
  = (n + length (filter (λ r : string * bool, r.2 = true) results))%nat.
Proof.
  revert n. induction results as [|[name b] results IH]; intros n.
  { simpl. lia. }
  destruct b.
  - rewrite filter_cons_True by done. simpl. rewrite IH. lia.
  - rewrite filter_cons_False by done. simpl. by rewrite IH.
Qed.

Lemma length_filter_all {A} (P : A → Prop) `{!∀ x, Decision (P x)} l :
  length (filter P l) = length l ↔ Forall P l.
Proof.
  induction l as [|x l IH].
  { split; [constructor|done]. }
  pose proof (length_filter P l) as Hle.
  destruct (decide (P x)) as [Hx|Hx].
  - rewrite filter_cons_True by done. simpl. rewrite Forall_cons.
    split; [intros [= ?]; tauto|intros [_ ?]; f_equal; tauto].
  - rewrite filter_cons_False by done. rewrite Forall_cons. simpl.
    split; [lia|tauto].
Qed.

(** [test_all] runs every test of its list, in order, whatever the earlier
    ones did: a test that raises an [Exception] is recorded as failed and
    does not stop the others.  The total it prints counts the tests that
    returned a true value, so it is at most the number of tests, and it
    equals it exactly when every test returned a true value (a test that
    returns nothing counts as failed).  Only an exception that is not an
    [Exception] stops the run. *)
Theorem run_tests_counts tests :
  (Exists (λ t, t.2 = RaisedOther) tests → run_tests tests = None)
  ∧ (Forall (λ t, t.2 ≠ RaisedOther) tests →
     ∃ results passed,
       run_tests tests = Some (results, passed)
       ∧ results = (λ t, (t.1, recorded_result t.2)) <$> tests
       ∧ results.*1 = tests.*1
       ∧ passed = length (filter (λ t, recorded_result t.2 = true) tests)
       ∧ (passed ≤ length tests)%nat
       ∧ (passed = length tests
          ↔ Forall (λ t, t.2 = Returned true) tests)).
Proof.
  split.
  { intros H. unfold run_tests. by rewrite foldl_run_one_abort. }
  intros H. unfold run_tests. rewrite foldl_run_one_Some by done. simpl.
  eexists _, _. split; [done|]. split; [done|].
  assert (length (filter (λ r : string * bool, r.2 = true)
                    ((λ t, (t.1, recorded_result t.2)) <$> tests))
          = length (filter (λ t : string * outcome,
                              recorded_result t.2 = true) tests)) as Hcount.
  { clear H. induction tests as [|[name o] tests IH]; [done|]. csimpl.
    destruct (recorded_result o) eqn:E.
    - rewrite !filter_cons_True by done. simpl. by rewrite IH.
    - rewrite !filter_cons_False by (simpl; congruence). done. }
  unfold count_passed. rewrite foldl_count_passed, Hcount. simpl.
  split_and!.
  - rewrite <- list_fmap_compose. by apply list_fmap_ext.
  - done.
  - apply length_filter.
  - rewrite length_filter_all.
    split; intros HF; (eapply Forall_impl; [exact HF|]).
    + intros [name o]; simpl. by destruct o as [[]| |].
    + by intros [name o]; simpl; intros ->.
Qed.

End TestAll.

Lemma run_tests_counts_witness :
  Tests.test_all
    (λ name, if String.eqb name "Solver" then Tests.RaisedException
             else if String.eqb name "Results" then Tests.Returned false
             else Tests.Returned true)
  = Some ([("Terrain", true); ("Flow Model", true); ("Solver", false);
           ("Rheology", true); ("Entrainment", true); ("Raster I/O", true);
           ("Parameters", true); ("Results", false)]%string, 6%nat).
Proof.
  unfold Tests.test_all.
  match goal with |- Tests.run_tests ?tests = _ =>
    destruct (proj2 (run_tests_counts tests))
      as (results & passed & Hrun & Hres & _ & Hpassed & _)
  end.
  { cbn. repeat (constructor; [discriminate|]). constructor. }
  rewrite Hrun, Hres, Hpassed. reflexivity.
Defined.

(** ** The build script *)

Section BuildScript.

Import Build.

(** [check_dependencies] succeeds exactly when numpy, matplotlib, scipy and
    PyInstaller can all be imported; the optional packages (PyQt6, numba,
    rasterio) never change its answer nor the list of missing packages,
    which names only required packages that cannot be imported. *)
Theorem check_dependencies_required_only can_import :
  (check_dependencies can_import = true
   ↔ Forall (λ pkg, can_import pkg = true)
            (required ++ ["PyInstaller"%string]))
  ∧ (∀ can_import' : string → bool,
       Forall (λ pkg, can_import pkg = can_import' pkg)
              (required ++ ["PyInstaller"%string]) →
       missing_packages can_import = missing_packages can_import')
  ∧ Forall (λ pkg, pkg = "pyinstaller"%string
                   ∨ (pkg ∈ required ∧ can_import pkg = false))
           (missing_packages can_import).
Proof.
  unfold check_dependencies, missing_packages, required. simpl.
  split_and!.
  - rewrite !Forall_cons.
    destruct (can_import "numpy"%string), (can_import "matplotlib"%string),
      (can_import "scipy"%string), (can_import "PyInstaller"%string);
      simpl; split; try done; intros (? & ? & ? & ? & _); done.
  - intros can_import'. rewrite !Forall_cons.
    by intros (<- & <- & <- & <- & _).
  - destruct (can_import "numpy"%string) eqn:E1,
      (can_import "matplotlib"%string) eqn:E2,
      (can_import "scipy"%string) eqn:E3,
      (can_import "PyInstaller"%string) eqn:E4; simpl;
      repeat (constructor; [first [by left|right; split; [set_solver|done]]|]);
      constructor.
Qed.

(** Building the option list never fails (the [remove] finds its element),
    the executable is windowed exactly when PyQt6 can be imported, numba is
    a hidden import exactly when it can be imported, no option is given
    twice and the script to freeze comes first. *)
Theorem build_options_windowed_iff_gui can_import :
  ∃ options,
    build_options can_import = Some options
    ∧ ("--windowed"%string ∈ options ↔ can_import "PyQt6"%string = true)
    ∧ ("--hidden-import=numba"%string ∈ options
       ↔ can_import "numba"%string = true)
    ∧ NoDup options
    ∧ head options = Some "main.py"%string.
Proof.
  unfold build_options.
  destruct (can_import "PyQt6"%string), (can_import "numba"%string);
    eexists; (split; [reflexivity|]); split_and!;
    try reflexivity;
    apply (bool_decide_unpack _); vm_compute; exact I.
Qed.

(** The build stops at the first step that fails: PyInstaller is not run
    when a required package is missing, the distribution files are written
    only after the executable has been found, and the exit code is 0
    exactly when the dependency check, the build and the verification all
    succeed. *)
Theorem build_main_stops_at_first_failure can_import build_ok verify_ok :
  let code := (main can_import build_ok verify_ok).1 in
  let steps := (main can_import build_ok verify_ok).2 in
  (code = 0%Z
   ↔ check_dependencies can_import = true ∧ build_ok = true
     ∧ verify_ok = true)
  ∧ (code = 0%Z ∨ code = 1%Z)
  ∧ (step_build_executable ∈ steps ↔ check_dependencies can_import = true)
  ∧ (step_create_distribution ∈ steps ↔ code = 0%Z)
  ∧ steps `prefix_of`
      [step_check_dependencies; step_clean_build; step_build_executable;
       step_verify_build; step_create_distribution].
Proof.
  unfold main.
  destruct (check_dependencies can_import), build_ok, verify_ok; simpl;
    split_and!; apply (bool_decide_unpack _); vm_compute; exact I.
Qed.

End BuildScript.

(** ** The two command lines *)

Section FrontEnds.

(** Given the same options, [run_simulation.py] and [pydebflow simulate]
    launch the same driver with the same arguments, or both launch none,
    unless both a DEM file and the synthetic terrain are asked for: then
    [run_simulation.py] runs the DEM simulation and [pydebflow simulate]
    the synthetic test. *)
Theorem front_ends_agree_unless_both_inputs a b :
  same_options a b →
  if given (RunSimulationCli.dem_file a) && RunSimulationCli.synthetic_test a
  then
    (∃ c, RunSimulationCli.main a = RunSimulationCli.run c
          ∧ is_dem_call c = true)
    ∧ (∃ c, PydebflowCli.cmd_simulate b = Some c ∧ is_dem_call c = false)
  else
    match PydebflowCli.cmd_simulate b with
    | Some c => RunSimulationCli.main a = RunSimulationCli.run c
    | None => ∀ c, RunSimulationCli.main a ≠ RunSimulationCli.run c
    end.
Proof.
  intros (Hdem & Hsyn & Ht & Hout & Hrow & Hcol & Hrad & Hh & Han & Hvid
          & Hnv).
  unfold RunSimulationCli.main, PydebflowCli.cmd_simulate.
  rewrite <- Hdem, <- Hsyn, <- Ht, <- Hout, <- Hrow, <- Hcol, <- Hrad, <- Hh,
    <- Han, <- Hvid, <- Hnv.
  destruct (given (RunSimulationCli.dem_file a)),
    (RunSimulationCli.synthetic_test a); simpl.
  - split; eexists; split; reflexivity.
  - reflexivity.
  - reflexivity.
  - intros c.
    destruct (RunSimulationCli.test_all a),
      (RunSimulationCli.test_flow_model a), (RunSimulationCli.test_solver a),
      (RunSimulationCli.test_rheology a), (RunSimulationCli.test_3d a);
      discriminate.
Qed.

(** With [--no-viz], neither front end shows or saves the summary figure
    nor opens the 3D viewer's window; but the option does not reach
    [export_video]: a DEM run with the video option still loads the
    snapshots into the viewer and exports the animation, when the viewer
    can be imported. *)
Theorem no_viz_keeps_video_export a b viewer :
  RunSimulationCli.no_viz a = true → PydebflowCli.no_viz b = true →
  (∀ c, RunSimulationCli.main a = RunSimulationCli.run c →
     (∀ d, d ∈ display_of viewer c → d = load_snapshots ∨ d = export_animation)
     ∧ (export_animation ∈ display_of viewer c
        ↔ given (RunSimulationCli.dem_file a) = true
          ∧ RunSimulationCli.export_video a = true ∧ viewer = true))
  ∧ (∀ c, PydebflowCli.cmd_simulate b = Some c →
     (∀ d, d ∈ display_of viewer c → d = load_snapshots ∨ d = export_animation)
     ∧ (export_animation ∈ display_of viewer c
        ↔ PydebflowCli.synthetic b = false
          ∧ given (PydebflowCli.dem b) = true
          ∧ PydebflowCli.video b = true ∧ viewer = true)).
Proof.
  intros Ha Hb.
  assert (∀ viewer animate video P,
    (video = true ∧ viewer = true ↔ P) →
    (∀ d, d ∈ dem_display viewer (animate && negb true) video →
          d = load_snapshots ∨ d = export_animation)
    ∧ (export_animation ∈ dem_display viewer (animate && negb true) video
       ↔ P)) as Hdem.
  { intros v animate video P <-. rewrite andb_false_r.
    unfold dem_display. destruct video, v; simpl;
      (split; [intros d|]); rewrite ?elem_of_cons, ?elem_of_nil;
      intuition (subst; auto; congruence). }
  split; intros c.
  - unfold RunSimulationCli.main. rewrite Ha.
    destruct (given (RunSimulationCli.dem_file a)).
    { intros [= Hc]. subst c. simpl. apply Hdem. tauto. }
    destruct (RunSimulationCli.synthetic_test a).
    { intros [= Hc]. subst c. simpl.
      split; [intros d|]; rewrite ?elem_of_nil; intuition congruence. }
    destruct (RunSimulationCli.test_all a),
      (RunSimulationCli.test_flow_model a), (RunSimulationCli.test_solver a),
      (RunSimulationCli.test_rheology a), (RunSimulationCli.test_3d a);
      discriminate.
  - unfold PydebflowCli.cmd_simulate. rewrite Hb.
    destruct (PydebflowCli.synthetic b).
    { intros [= Hc]. subst c. simpl.
      split; [intros d|]; rewrite ?elem_of_nil; intuition congruence. }
    destruct (given (PydebflowCli.dem b)); [|discriminate].
    intros [= Hc]. subst c. simpl. apply Hdem. tauto.
Qed.

End FrontEnds.

Lemma front_ends_agree_unless_both_inputs_witness :
  RunSimulationCli.main
    (RunSimulationCli.namespace (Some "terrain.asc"%string) true false false
       false)
  = RunSimulationCli.run
      (call_run_dem_simulation "terrain.asc" "./output" 30.0 None None 10 5.0
         false false)
  ∧ PydebflowCli.cmd_simulate
      (PydebflowCli.namespace (Some "terrain.asc"%string) true false false
         false)
    = Some (call_run_synthetic_test "./output" 30.0 true).
Proof.
  pose proof (front_ends_agree_unless_both_inputs
                (RunSimulationCli.namespace (Some "terrain.asc"%string) true
                   false false false)
                (PydebflowCli.namespace (Some "terrain.asc"%string) true
                   false false false)
                ltac:(repeat split)) as [_ _].
  split; reflexivity.
Defined.

Lemma no_viz_keeps_video_export_witness :
  export_animation
  ∈ display_of true
      (call_run_dem_simulation "terrain.asc" "./output" 30.0 None None 10 5.0
         false true).
Proof.
  apply (proj1 (no_viz_keeps_video_export
                  (RunSimulationCli.namespace (Some "terrain.asc"%string)
                     false true true true)
                  (PydebflowCli.namespace None true false false true)
                  true eq_refl eq_refl) _ eq_refl).
  by repeat split.
Defined.

(** ** The progress bar *)

Section ProgressBar.

Import Progress.




End ProgressBar.


(** ** The summary of [run_synthetic_test] *)

Section SummaryStatistics.

Import Float64.

Variable compute_impact_pressure : FlowParameters → FlowState → Grid.

Lemma concat_nil_shape rows cols (a : Grid) :
  has_shape rows cols a → (concat a = [] ↔ rows = O ∨ cols = O).
Proof.
  intros [Hr Hc]. split.
  - destruct a as [|row a]; simpl in *; [by left|].
    intros [Hrow _]%app_eq_nil. apply Forall_cons in Hc as [Hc _].
    right. by rewrite <- Hc, Hrow.
  - intros [->|Hz].
    + by apply nil_length_inv in Hr as ->.
    + clear Hr. induction Hc as [|row a Hrow _ IH]; [done|]. simpl.
      rewrite IH. rewrite Hz in Hrow. by apply nil_length_inv in Hrow as ->.
Qed.

Lemma foldl_maximum_is_maximum x l :
  is_maximum_of (foldl np_maximum x l) (x :: l).
Proof.
  unfold is_maximum_of. simpl. destruct (is_nan x) eqn:Hx; simpl.
  { by apply foldl_maximum_nan. }
  destruct (existsb is_nan l) eqn:Hl.
  { by apply foldl_maximum_some_nan. }
  destruct (foldl_maximum_bounds x l Hx Hl) as (Hr & Hle & Hall & Hin).
  split; [|by constructor].
  exists (foldl np_maximum x l). split.
  - destruct Hin as [->|Hin]; [left|by right].
  - by apply leb_antisym; apply leb_refl.
Qed.

Lemma foldl_maximum_nonneg x l :
  nonneg_or_nan x → nonneg_or_nan (foldl np_maximum x l).
Proof.
  revert x. induction l as [|v l IH]; intros x Hx; simpl; [done|].
  by apply IH, np_maximum_nonneg.
Qed.

Lemma np_max_spec rows cols a :
  has_shape rows cols a →
  (np_max a = None ↔ rows = O ∨ cols = O)
  ∧ ∀ m, np_max a = Some m →
      is_maximum_of m (concat a)
      ∧ (grid_all nonneg_or_nan a → nonneg_or_nan m).
Proof.
  intros Hs. rewrite <- (concat_nil_shape rows cols a Hs). unfold np_max.
  destruct (concat a) as [|x l] eqn:E.
  - split; [done|]. by intros m.
  - split; [done|]. intros m [= <-].
    split; [apply foldl_maximum_is_maximum|].
    intros Hnn. apply foldl_maximum_nonneg.
    assert (Forall nonneg_or_nan (concat a)) as Hall.
    { apply Forall_concat. exact Hnn. }
    rewrite E in Hall. by apply Forall_cons in Hall as [? _].
Qed.

Lemma accumulate_shape_sign terrain params outputs :
  Forall (λ o, snapshot_shape terrain o.2
               ∧ has_shape (rows terrain) (cols terrain)
                   (compute_impact_pressure params o.2))
         outputs →
  Forall (λ a, has_shape (rows terrain) (cols terrain) a
               ∧ grid_all nonneg_or_nan a)
    (let acc := accumulate compute_impact_pressure terrain params outputs in
     [Loop.max_height acc; Loop.max_velocity acc; Loop.max_pressure acc]).
Proof.
  intros Hok. unfold accumulate, loop_init. rewrite foldl_loop_body. simpl.
  assert (grid_all nonneg_or_nan (np_zeros (rows terrain) (cols terrain)))
    as Hz by (apply grid_all_np_zeros; by right).
  repeat constructor.
  all: try (apply (foldl_maximum_shape_sign _ (rows terrain) (cols terrain));
            [apply has_shape_np_zeros|done|]).
  all: eapply Forall_impl; [exact Hok|];
    intros o ((Hs & Hf & Hu & Hv) & Hp); simpl; try done.
  all: try (by apply has_shape_elementwise).
  all: apply has_shape_grid_map, has_shape_elementwise;
    by apply has_shape_grid_map.
Qed.

(** The three maxima of the summary can be printed exactly when the terrain
    has at least one cell: on a terrain without rows or without columns
    [max_height.max()] raises.  When they are printed, each is the maximum
    of all the cells of its array in numpy's sense, and none is negative. *)
Theorem summary_maxima_printable terrain params outputs :
  Forall (λ o, snapshot_shape terrain o.2
               ∧ has_shape (rows terrain) (cols terrain)
                   (compute_impact_pressure params o.2))
         outputs →
  let acc := accumulate compute_impact_pressure terrain params outputs in
  (printed_maxima acc = None ↔ rows terrain = O ∨ cols terrain = O)
  ∧ ∀ h v p, printed_maxima acc = Some (h, v, p) →
      is_maximum_of h (concat (Loop.max_height acc))
      ∧ is_maximum_of v (concat (Loop.max_velocity acc))
      ∧ is_maximum_of p (concat (Loop.max_pressure acc))
      ∧ nonneg_or_nan h ∧ nonneg_or_nan v ∧ nonneg_or_nan p.
Proof.
  intros Hok acc.
  pose proof (accumulate_shape_sign terrain params outputs Hok) as Hacc.
  cbv zeta in Hacc. fold acc in Hacc.
  apply Forall_cons in Hacc as [[Hsh Hnh] Hacc].
  apply Forall_cons in Hacc as [[Hsv Hnv] Hacc].
  apply Forall_cons in Hacc as [[Hsp Hnp] _].
  destruct (np_max_spec _ _ _ Hsh) as [Hh Hh'].
  destruct (np_max_spec _ _ _ Hsv) as [Hv Hv'].
  destruct (np_max_spec _ _ _ Hsp) as [Hp Hp'].
  unfold printed_maxima.
  destruct (np_max (Loop.max_height acc)) as [h|]; simpl;
    [|split; [tauto|done]].
  destruct (np_max (Loop.max_velocity acc)) as [v|]; simpl;
    [|split; [tauto|done]].
  destruct (np_max (Loop.max_pressure acc)) as [p|]; simpl;
    [|split; [tauto|done]].
  split.
  - split; [done|]. intros H. apply Hh in H. done.
  - intros h' v' p' [= <- <- <-].
    destruct (Hh' h eq_refl), (Hv' v eq_refl), (Hp' p eq_refl). auto 10.
Qed.

Lemma of_nat_ge0 n : (0 <=? of_nat n) = true.
Proof.
  rewrite leb_zero_spec. unfold of_nat. rewrite of_uint63_spec.
  pose proof (Uint63.to_Z_bounded (Uint63.of_Z (Z.of_nat n))) as [Hge _].
  destruct (Uint63.to_Z _) as [|m|m]; simpl; [done| |lia].
  unfold binary_round. destruct (shl_align _ _ _) as [mz ez].
  by apply binary_round_aux_ge0.
Qed.

(** The affected area of the summary is never negative, whatever the array
    of maxima and the cell size are; it is a NaN at worst (an infinite or
    NaN cell size).  The approximate runout is never negative either when
    the cell size is not. *)
Theorem summary_figures_never_negative terrain max_height :
  nonneg_or_nan (affected terrain max_height)
  ∧ ((0 <=? cell_size terrain) = true →
     ∀ d, runout_distance terrain max_height = Some d → nonneg_or_nan d).
Proof.
  split.
  - apply mul_nonneg; [right; apply of_nat_ge0|apply square_nonneg].
  - intros Hc d. unfold runout_distance.
    destruct (runout max_height) as [r|]; simpl; [|done].
    intros [= <-]. apply mul_nonneg; right; [apply of_nat_ge0|done].
Qed.

End SummaryStatistics.

Lemma summary_maxima_printable_witness :
  printed_maxima (accumulate sample_pressure sample_terrain synthetic_params
                    sample_outputs)
  ≠ None.
Proof.
  intros H.
  apply (summary_maxima_printable sample_pressure sample_terrain
           synthetic_params sample_outputs ltac:(check_sample)) in H.
  simpl in H. lia.
Defined.
